(** * TrustSync backend (src/index.js): channel routing, escalation timers,
      acknowledgment and the login/binding flow.

    The server keeps five in-memory stores (plain JS objects and one array),
    mutated by the Express handlers and by the callbacks given to
    [setTimeout].  The embedding threads them through an explicit [State];
    every handler is a function [State -> Response * State], and the event
    loop is a step function over actions (a request is handled, time passes,
    a due timer fires).

    Modelling choices.  Each store is a finite map over its own properties;
    user and event ids are strings (or absent), and are taken not to be
    names that every JS object inherits, such as "constructor".  A
    timestamp is the clock reading in milliseconds that [now()] formats.
    [console.log] and the static file server are left out. *)

From stdpp Require Import gmap strings list fin_maps sorting.

Local Open Scope Z_scope.

(** ** JSON values and JS conversions *)

(** A JSON value as a request carries it.  [JObject] stands for any nested
    object or array: the code only ever tests such a value for truthiness.
    A number is kept as an integer; the code only tests numbers against
    zero.  The value [undefined] is the absence of a property. *)
Inductive jsval :=
| JNull
| JBool (b : bool)
| JNum (n : Z)
| JStr (s : string)
| JObject.

(** A JS object used as a string-keyed record: its own enumerable
    properties. *)
Abbreviation jsobj := (gmap string jsval).

(** ToBoolean, on the result of a property read. *)
Definition truthy (v : option jsval) : bool :=
  match v with
  | None => false
  | Some JNull => false
  | Some (JBool b) => b
  | Some (JNum n) => negb (n =? 0)
  | Some (JStr s) => negb (String.eqb s "")
  | Some JObject => true
  end.

(** [v === lit] for a string literal [lit], on the result of a property
    read. *)
Definition strict_eq_str (v : option jsval) (lit : string) : bool :=
  match v with
  | Some (JStr x) => String.eqb x lit
  | _ => false
  end.

(** [{ ...a, ...b }]: the properties of [a], overwritten by those of [b]. *)
Definition spread (a b : jsobj) : jsobj := b ∪ a.

(** A request field that should hold a string; [None] is [undefined]. *)
Definition str_truthy (o : option string) : bool :=
  match o with
  | Some s => negb (String.eqb s "")
  | None => false
  end.

(** [o || d] on such a field. *)
Definition or_str (o : option string) (d : string) : string :=
  match o with
  | Some s => if String.eqb s "" then d else s
  | None => d
  end.

(** ToString, as done by a property access [OBJ[x]] and by a template
    literal. *)
Definition to_key (o : option string) : string :=
  match o with
  | Some s => s
  | None => "undefined"
  end.

(** ** Configuration *)

Definition PORT : Z := 4000.
Definition WHATSAPP_TIMEOUT_MS : Z := 20000.
Definition DEFAULT_PUSH_TIMEOUT_MS : Z := 20000.

(** ** Data model *)

Inductive Channel := IN_APP | PUSH | WHATSAPP | SMS | SMS_BINDING | ANALYZING.

Definition channel_name (c : Channel) : string :=
  match c with
  | IN_APP => "IN_APP"
  | PUSH => "PUSH"
  | WHATSAPP => "WHATSAPP"
  | SMS => "SMS"
  | SMS_BINDING => "SMS_BINDING"
  | ANALYZING => "ANALYZING"
  end.

(** One entry of [logs]: [{ ts, msg }].  Timestamps are milliseconds; the
    source renders them with [toISOString]. *)
Record LogEntry := { ts : Z; msg : string }.

(** A telemetry record, as the object literals of /login and
    /send-notification build it.  [null] is [None]. *)
Record Telemetry := {
  event_id : string;
  user_id : option string;
  event_type : string;
  chosen_channel : option Channel;
  sent_ts : option Z;
  ack_ts : option Z;
  fallback_triggered : bool;
  fallback_channel : option Channel;
  logs : list LogEntry
}.

(** Field assignments [TELEMETRY[id].f = v]. *)
Definition set_event_type (v : string) (r : Telemetry) : Telemetry :=
  {| event_id := event_id r; user_id := user_id r; event_type := v;
     chosen_channel := chosen_channel r; sent_ts := sent_ts r;
     ack_ts := ack_ts r; fallback_triggered := fallback_triggered r;
     fallback_channel := fallback_channel r; logs := logs r |}.

Definition set_chosen_channel (v : option Channel) (r : Telemetry) : Telemetry :=
  {| event_id := event_id r; user_id := user_id r; event_type := event_type r;
     chosen_channel := v; sent_ts := sent_ts r;
     ack_ts := ack_ts r; fallback_triggered := fallback_triggered r;
     fallback_channel := fallback_channel r; logs := logs r |}.

Definition set_sent_ts (v : option Z) (r : Telemetry) : Telemetry :=
  {| event_id := event_id r; user_id := user_id r; event_type := event_type r;
     chosen_channel := chosen_channel r; sent_ts := v;
     ack_ts := ack_ts r; fallback_triggered := fallback_triggered r;
     fallback_channel := fallback_channel r; logs := logs r |}.

Definition set_ack_ts (v : option Z) (r : Telemetry) : Telemetry :=
  {| event_id := event_id r; user_id := user_id r; event_type := event_type r;
     chosen_channel := chosen_channel r; sent_ts := sent_ts r;
     ack_ts := v; fallback_triggered := fallback_triggered r;
     fallback_channel := fallback_channel r; logs := logs r |}.

Definition set_fallback_triggered (v : bool) (r : Telemetry) : Telemetry :=
  {| event_id := event_id r; user_id := user_id r; event_type := event_type r;
     chosen_channel := chosen_channel r; sent_ts := sent_ts r;
     ack_ts := ack_ts r; fallback_triggered := v;
     fallback_channel := fallback_channel r; logs := logs r |}.

Definition set_fallback_channel (v : option Channel) (r : Telemetry) : Telemetry :=
  {| event_id := event_id r; user_id := user_id r; event_type := event_type r;
     chosen_channel := chosen_channel r; sent_ts := sent_ts r;
     ack_ts := ack_ts r; fallback_triggered := fallback_triggered r;
     fallback_channel := v; logs := logs r |}.

Definition push_log (e : LogEntry) (r : Telemetry) : Telemetry :=
  {| event_id := event_id r; user_id := user_id r; event_type := event_type r;
     chosen_channel := chosen_channel r; sent_ts := sent_ts r;
     ack_ts := ack_ts r; fallback_triggered := fallback_triggered r;
     fallback_channel := fallback_channel r; logs := logs r ++ [e] |}.

(** An entry of [USER_DB]. *)
Record UserEntry := {
  registered_device_id : option string;
  is_registered : bool
}.

(** The two closures handed to [setTimeout]; each captures [event_id], the
    PUSH one also [ctx]. *)
Inductive TimerBody :=
| PushFallback (eid : string) (ctx : jsobj)
| WhatsappFallback (eid : string).

(** A pending timer: the handle [setTimeout] returned, the earliest time
    its callback may run, and the callback. *)
Record Timer := { tm_id : nat; tm_due : Z; tm_body : TimerBody }.

(** The event a callback addresses: the [event_id] it captured. *)
Definition cb_event (cb : TimerBody) : string :=
  match cb with
  | PushFallback eid _ => eid
  | WhatsappFallback eid => eid
  end.

Definition tm_event (t : Timer) : string := cb_event (tm_body t).

(** The process state: the five stores, the wall clock read by [now()],
    and the timers of the event loop. *)
Record State := {
  TELEMETRY : gmap string Telemetry;
  USER_EVENTS : gmap string (list string);
  EVENT_ORDER : list string;
  USER_DB : gmap string UserEntry;
  DEVICE_CONTEXT_STORE : gmap string jsobj;
  clock : Z;
  timers : list Timer;
  next_timer : nat
}.

Definition demo_context : jsobj :=
  <["device_status" := JStr "KNOWN"]>
  (<["has_app" := JBool true]>
  (<["is_active" := JBool false]>
  (<["device_online" := JBool true]>
  (<["whatsapp_opt_in" := JBool true]> ∅)))).

(** The stores as the module initialises them, at start time [t0]. *)
Definition init_at (t0 : Z) : State :=
  {| TELEMETRY := ∅;
     USER_EVENTS := ∅;
     EVENT_ORDER := [];
     USER_DB := {[ "demo_user" :=
                   {| registered_device_id := Some "device_888";
                      is_registered := true |} ]};
     DEVICE_CONTEXT_STORE := {[ "demo_user" := demo_context ]};
     clock := t0;
     timers := [];
     next_timer := 0%nat |}.

Definition init : State := init_at 0.

(** ** Store primitives *)

Definition now (s : State) : Z := clock s.

Definition with_TELEMETRY (f : gmap string Telemetry → gmap string Telemetry)
    (s : State) : State :=
  {| TELEMETRY := f (TELEMETRY s); USER_EVENTS := USER_EVENTS s;
     EVENT_ORDER := EVENT_ORDER s; USER_DB := USER_DB s;
     DEVICE_CONTEXT_STORE := DEVICE_CONTEXT_STORE s; clock := clock s;
     timers := timers s; next_timer := next_timer s |}.

(** [TELEMETRY[id] = { ... }] *)
Definition create_record (r : Telemetry) (s : State) : State :=
  with_TELEMETRY (insert (event_id r) r) s.

(** [TELEMETRY[id].f = v].  Every such write in the source comes right after
    the record was created or behind a presence test, so the record is
    there. *)
Definition write_record (eid : string) (f : Telemetry → Telemetry)
    (s : State) : State :=
  with_TELEMETRY (alter f eid) s.

(** [if (!EVENT_ORDER.includes(id)) EVENT_ORDER.unshift(id)] *)
Definition note_order (eid : string) (s : State) : State :=
  {| TELEMETRY := TELEMETRY s; USER_EVENTS := USER_EVENTS s;
     EVENT_ORDER := if decide (eid ∈ EVENT_ORDER s) then EVENT_ORDER s
                    else eid :: EVENT_ORDER s;
     USER_DB := USER_DB s;
     DEVICE_CONTEXT_STORE := DEVICE_CONTEXT_STORE s; clock := clock s;
     timers := timers s; next_timer := next_timer s |}.

Definition pushUserEvent (userId eventId : string) (s : State) : State :=
  {| TELEMETRY := TELEMETRY s;
     USER_EVENTS :=
       <[userId := default [] (USER_EVENTS s !! userId) ++ [eventId]]>
         (USER_EVENTS s);
     EVENT_ORDER := EVENT_ORDER s; USER_DB := USER_DB s;
     DEVICE_CONTEXT_STORE := DEVICE_CONTEXT_STORE s; clock := clock s;
     timers := timers s; next_timer := next_timer s |}.

Definition recordLog (eid : string) (m : string) (s : State) : State :=
  match TELEMETRY s !! eid with
  | None => s
  | Some _ => write_record eid (push_log {| ts := now s; msg := m |}) s
  end.

Definition set_USER_DB (k : string) (u : UserEntry) (s : State) : State :=
  {| TELEMETRY := TELEMETRY s; USER_EVENTS := USER_EVENTS s;
     EVENT_ORDER := EVENT_ORDER s; USER_DB := <[k := u]> (USER_DB s);
     DEVICE_CONTEXT_STORE := DEVICE_CONTEXT_STORE s; clock := clock s;
     timers := timers s; next_timer := next_timer s |}.

Definition set_DEVICE_CONTEXT (k : string) (c : jsobj) (s : State) : State :=
  {| TELEMETRY := TELEMETRY s; USER_EVENTS := USER_EVENTS s;
     EVENT_ORDER := EVENT_ORDER s; USER_DB := USER_DB s;
     DEVICE_CONTEXT_STORE := <[k := c]> (DEVICE_CONTEXT_STORE s);
     clock := clock s; timers := timers s; next_timer := next_timer s |}.

(** [setTimeout(cb, delay)]: the callback becomes pending under a new
    handle and may run once [delay] milliseconds have passed. *)
Definition setTimeout (cb : TimerBody) (delay : Z) (s : State) : State :=
  {| TELEMETRY := TELEMETRY s; USER_EVENTS := USER_EVENTS s;
     EVENT_ORDER := EVENT_ORDER s; USER_DB := USER_DB s;
     DEVICE_CONTEXT_STORE := DEVICE_CONTEXT_STORE s; clock := clock s;
     timers := timers s ++
       [{| tm_id := next_timer s; tm_due := clock s + delay; tm_body := cb |}];
     next_timer := S (next_timer s) |}.

(** ** Requests and responses *)

(** The body of POST /send-notification.  [body_user_context] holds the own
    enumerable properties of [body.user_context], which is all the spread
    reads (none when the field is absent). *)
Record Body := {
  body_event_id : option string;
  body_user_id : option string;
  body_event_type : option string;
  body_user_context : jsobj
}.

(** A request, with the value [uuidv4()] returns should the handler call
    it. *)
Inductive Request :=
| Health
| UpdateContext (uid : option string) (context : jsobj)
| Login (uid did : option string) (uuid : string)
| CompleteBinding (uid did eid : option string)
| SendNotification (body : Body) (uuid : string)
| Ack (eid channel : option string)
| GetEvents
| GetInbox (userId : string).

(** What [res.json] is given.  A record is serialised when the response is
    sent, so a response holds a copy. *)
Inductive Response :=
| RespHealth (t : Z)
| RespOk
| RespLogin (status : string) (eid : string) (channel : Channel)
    (target_number : option string) (message : string)
| RespDispatch (eid : string) (chosen : Channel) (telemetry : option Telemetry)
| RespEvents (count : nat) (events : list Telemetry)
| RespInbox (messages : list Telemetry)
| RespError (code : nat) (error : string).

(** ** Handlers *)

(** POST /update-context *)
Definition update_context (uid : option string) (context : jsobj)
    (s : State) : Response * State :=
  let targetUser := or_str uid "demo_user" in
  (RespOk,
   set_DEVICE_CONTEXT targetUser
     (spread (default ∅ (DEVICE_CONTEXT_STORE s !! targetUser)) context) s).

(** POST /login *)
Definition login (uid did : option string) (uuid : string)
    (s : State) : Response * State :=
  let eid := uuid in
  let simContext : jsobj :=
    default ∅ (DEVICE_CONTEXT_STORE s !! to_key uid) in
  let s := create_record
    {| event_id := eid; user_id := uid; event_type := "LOGIN_ATTEMPT";
       chosen_channel := Some ANALYZING; sent_ts := Some (now s);
       ack_ts := None; fallback_triggered := false;
       fallback_channel := None; logs := [] |} s in
  let s := note_order eid s in
  let s := pushUserEvent (to_key uid) eid s in
  let s := recordLog eid ("Login attempt from Device ID: " +:+ to_key did) s in
  if strict_eq_str (simContext !! "device_status") "KNOWN" then
    let s := write_record eid (set_event_type "TRUSTED_LOGIN") s in
    let s := write_record eid (set_chosen_channel (Some IN_APP)) s in
    let s := recordLog eid "✅ Device ID matched registry." s in
    let s := recordLog eid "Trust Score: HIGH. Sending In-App Flash." s in
    (RespLogin "TRUSTED" eid IN_APP None "Device Verified.", s)
  else
    let s := write_record eid (set_event_type "NEW_DEVICE_LOGIN") s in
    let s := write_record eid (set_chosen_channel (Some SMS_BINDING)) s in
    let s := recordLog eid "⚠️ Device ID mismatch (Unknown Device)." s in
    let s := recordLog eid
      "Security Policy: Force SIM Binding (Upstream SMS)." s in
    (RespLogin "BINDING_REQUIRED" eid SMS_BINDING (Some "+919999999999")
       "Binding Required.", s).

(** POST /complete-binding *)
Definition complete_binding (uid did eid : option string)
    (s : State) : Response * State :=
  let oldID :=
    or_str (USER_DB s !! to_key uid ≫= registered_device_id) "none" in
  let s := set_USER_DB (to_key uid)
    {| registered_device_id := did; is_registered := true |} s in
  let s :=
    if str_truthy eid && bool_decide (is_Some (TELEMETRY s !! to_key eid)) then
      let s := write_record (to_key eid) (set_ack_ts (Some (now s))) s in
      let s := recordLog (to_key eid)
        "📩 Encrypted SMS received at Bank Server." s in
      recordLog (to_key eid)
        ("♻️ Registry Updated: Replaced " +:+ oldID +:+ " with "
           +:+ to_key did +:+ ".") s
    else s in
  (RespOk, s).

(** The closures of the two [setTimeout] calls. *)
Definition timer_callback (cb : TimerBody) (s : State) : State :=
  match cb with
  | PushFallback eid ctx =>
      match TELEMETRY s !! eid with
      | None => s
      | Some r =>
          if bool_decide (is_Some (ack_ts r)) then s
          else
            let fallback :=
              if truthy (ctx !! "whatsapp_opt_in") then WHATSAPP else SMS in
            let s := write_record eid (set_fallback_triggered true) s in
            let s := write_record eid (set_fallback_channel (Some fallback)) s in
            recordLog eid ("No ACK -> Fallback to " +:+ channel_name fallback) s
      end
  | WhatsappFallback eid =>
      match TELEMETRY s !! eid with
      | None => s
      | Some r =>
          if bool_decide (is_Some (ack_ts r)) then s
          else
            let s := write_record eid (set_fallback_triggered true) s in
            let s := write_record eid (set_fallback_channel (Some SMS)) s in
            recordLog eid "No ACK -> Fallback to SMS" s
      end
  end.

(** The context a dispatch routes on:
    [{ ...body.user_context, ...(DEVICE_CONTEXT_STORE[user_id] || {}) }]. *)
Definition dispatch_ctx (body : Body) (s : State) : jsobj :=
  let uid := or_str (body_user_id body) "demo_user" in
  let simulatedContext := default ∅ (DEVICE_CONTEXT_STORE s !! uid) in
  spread (body_user_context body) simulatedContext.

(** [body.event_id || uuidv4()] *)
Definition dispatch_id (body : Body) (uuid : string) : string :=
  or_str (body_event_id body) uuid.

(** POST /send-notification *)
Definition send_notification (body : Body) (uuid : string)
    (s : State) : Response * State :=
  let eid := dispatch_id body uuid in
  let uid := or_str (body_user_id body) "demo_user" in
  let etype := or_str (body_event_type body) "LOGIN_OTP" in
  let ctx := dispatch_ctx body s in
  let s := create_record
    {| event_id := eid; user_id := Some uid; event_type := etype;
       chosen_channel := None; sent_ts := None; ack_ts := None;
       fallback_triggered := false; fallback_channel := None;
       logs := [] |} s in
  let s := note_order eid s in
  let s := pushUserEvent uid eid s in
  if truthy (ctx !! "has_app") && truthy (ctx !! "is_active")
     && truthy (ctx !! "device_online") then
    let s := write_record eid (set_chosen_channel (Some IN_APP)) s in
    let s := write_record eid (set_sent_ts (Some (now s))) s in
    let s := recordLog eid "Route: IN_APP (User active in app)" s in
    (RespDispatch eid IN_APP (TELEMETRY s !! eid), s)
  else if truthy (ctx !! "has_app") && truthy (ctx !! "device_online") then
    let s := write_record eid (set_chosen_channel (Some PUSH)) s in
    let s := write_record eid (set_sent_ts (Some (now s))) s in
    let s := recordLog eid "Route: PUSH (Background notification)" s in
    let s := setTimeout (PushFallback eid ctx) WHATSAPP_TIMEOUT_MS s in
    (RespDispatch eid PUSH (TELEMETRY s !! eid), s)
  else if truthy (ctx !! "whatsapp_opt_in") && truthy (ctx !! "device_online") then
    let s := write_record eid (set_chosen_channel (Some WHATSAPP)) s in
    let s := write_record eid (set_sent_ts (Some (now s))) s in
    let s := recordLog eid "Route: WHATSAPP (Opt-in Primary)" s in
    let s := setTimeout (WhatsappFallback eid) WHATSAPP_TIMEOUT_MS s in
    (RespDispatch eid WHATSAPP (TELEMETRY s !! eid), s)
  else
    let s := write_record eid (set_chosen_channel (Some SMS)) s in
    let s := write_record eid (set_sent_ts (Some (now s))) s in
    let s := recordLog eid "Route: SMS (Last Resort)" s in
    (RespDispatch eid SMS (TELEMETRY s !! eid), s).

(** POST /ack *)
Definition ack (eid channel : option string) (s : State) : Response * State :=
  let s :=
    if bool_decide (is_Some (TELEMETRY s !! to_key eid)) then
      let s := write_record (to_key eid) (set_ack_ts (Some (now s))) s in
      recordLog (to_key eid) ("ACK received via " +:+ to_key channel) s
    else s in
  (RespOk, s).

(** GET /events *)
Definition events (s : State) : Response :=
  let limit := 50%nat in
  let evs := omap (λ id, TELEMETRY s !! id) (take limit (EVENT_ORDER s)) in
  RespEvents (length evs) evs.

(** GET /inbox/:userId *)
Definition inbox (userId : string) (s : State) : list Telemetry :=
  let eventIds := default [] (USER_EVENTS s !! userId) in
  reverse (omap (λ id, TELEMETRY s !! id) eventIds).

Definition handle (r : Request) (s : State) : Response * State :=
  match r with
  | Health => (RespHealth (now s), s)
  | UpdateContext uid context => update_context uid context s
  | Login uid did uuid => login uid did uuid s
  | CompleteBinding uid did eid => complete_binding uid did eid s
  | SendNotification body uuid => send_notification body uuid s
  | Ack eid channel => ack eid channel s
  | GetEvents => (events s, s)
  | GetInbox userId => (RespInbox (inbox userId s), s)
  end.

(** ** The event loop *)

(** What the process does next: handle a request, let time pass, or run the
    callback of a pending timer whose delay has elapsed. *)
Inductive Action :=
| Call (r : Request)
| Advance (dt : Z)
| Fire (id : nat).

Definition set_clock (t : Z) (s : State) : State :=
  {| TELEMETRY := TELEMETRY s; USER_EVENTS := USER_EVENTS s;
     EVENT_ORDER := EVENT_ORDER s; USER_DB := USER_DB s;
     DEVICE_CONTEXT_STORE := DEVICE_CONTEXT_STORE s; clock := t;
     timers := timers s; next_timer := next_timer s |}.

Definition set_timers (l : list Timer) (s : State) : State :=
  {| TELEMETRY := TELEMETRY s; USER_EVENTS := USER_EVENTS s;
     EVENT_ORDER := EVENT_ORDER s; USER_DB := USER_DB s;
     DEVICE_CONTEXT_STORE := DEVICE_CONTEXT_STORE s; clock := clock s;
     timers := l; next_timer := next_timer s |}.

Definition find_timer (id : nat) (l : list Timer) : option Timer :=
  head (filter (λ t, tm_id t = id) l).

Definition remove_timer (id : nat) (l : list Timer) : list Timer :=
  filter (λ t, tm_id t ≠ id) l.

(** One step; [None] when the action cannot happen in [s]: time does not run
    backwards, and a timer fires only if pending and due. *)
Definition step (a : Action) (s : State) : option State :=
  match a with
  | Call r => Some (snd (handle r s))
  | Advance dt =>
      if bool_decide (0 ≤ dt) then Some (set_clock (clock s + dt) s) else None
  | Fire id =>
      match find_timer id (timers s) with
      | Some t =>
          if bool_decide (tm_due t ≤ clock s)
          then Some (timer_callback (tm_body t)
                       (set_timers (remove_timer id (timers s)) s))
          else None
      | None => None
      end
  end.

Fixpoint run (tr : list Action) (s : State) : option State :=
  match tr with
  | [] => Some s
  | a :: tr' =>
      match step a s with
      | Some s' => run tr' s'
      | None => None
      end
  end.

(** ** The handlers in closed form

    The definitions below name what each handler leaves behind; the lemmas
    [*_unfold] prove that the handlers above compute exactly that. *)

(** The record a dispatch leaves in the store, once [ch] is chosen: the
    object literal, then [chosen_channel], [sent_ts] and the route log. *)
Definition route_msg (ch : Channel) : string :=
  match ch with
  | IN_APP => "Route: IN_APP (User active in app)"
  | PUSH => "Route: PUSH (Background notification)"
  | WHATSAPP => "Route: WHATSAPP (Opt-in Primary)"
  | _ => "Route: SMS (Last Resort)"
  end.

Definition dispatched_record (body : Body) (uuid : string) (t : Z)
    (ch : Channel) : Telemetry :=
  {| event_id := dispatch_id body uuid;
     user_id := Some (or_str (body_user_id body) "demo_user");
     event_type := or_str (body_event_type body) "LOGIN_OTP";
     chosen_channel := Some ch; sent_ts := Some t; ack_ts := None;
     fallback_triggered := false; fallback_channel := None;
     logs := [{| ts := t; msg := route_msg ch |}] |}.

(** The branch taken by /send-notification, read off the handler's tests. *)
Definition route (ctx : jsobj) : Channel :=
  if truthy (ctx !! "has_app") && truthy (ctx !! "is_active")
     && truthy (ctx !! "device_online") then IN_APP
  else if truthy (ctx !! "has_app") && truthy (ctx !! "device_online") then PUSH
  else if truthy (ctx !! "whatsapp_opt_in") && truthy (ctx !! "device_online")
  then WHATSAPP
  else SMS.

(** The timers a dispatch arms, by branch. *)
Definition armed (body : Body) (uuid : string) (s : State) : list Timer :=
  let eid := dispatch_id body uuid in
  let ctx := dispatch_ctx body s in
  match route ctx with
  | PUSH => [{| tm_id := next_timer s; tm_due := clock s + WHATSAPP_TIMEOUT_MS;
                tm_body := PushFallback eid ctx |}]
  | WHATSAPP => [{| tm_id := next_timer s;
                    tm_due := clock s + WHATSAPP_TIMEOUT_MS;
                    tm_body := WhatsappFallback eid |}]
  | _ => []
  end.

(** The record /login leaves in the store. *)
Definition login_record (uid did : option string) (uuid : string) (t : Z)
    (known : bool) : Telemetry :=
  {| event_id := uuid; user_id := uid;
     event_type := if known then "TRUSTED_LOGIN" else "NEW_DEVICE_LOGIN";
     chosen_channel := Some (if known then IN_APP else SMS_BINDING);
     sent_ts := Some t; ack_ts := None;
     fallback_triggered := false; fallback_channel := None;
     logs :=
       {| ts := t; msg := "Login attempt from Device ID: " +:+ to_key did |} ::
       if known then
         [{| ts := t; msg := "✅ Device ID matched registry." |};
          {| ts := t; msg := "Trust Score: HIGH. Sending In-App Flash." |}]
       else
         [{| ts := t; msg := "⚠️ Device ID mismatch (Unknown Device)." |};
          {| ts := t;
             msg := "Security Policy: Force SIM Binding (Upstream SMS)." |}] |}.

(** The flag /login decides on. *)
Definition device_known (uid : option string) (s : State) : bool :=
  strict_eq_str
    (default ∅ (DEVICE_CONTEXT_STORE s !! to_key uid) !! "device_status")
    "KNOWN".

(** What /ack, /complete-binding and a timer callback do to the record they
    address. *)
Definition ack_update (t : Z) (channel : option string)
    (r : Telemetry) : Telemetry :=
  push_log {| ts := t; msg := "ACK received via " +:+ to_key channel |}
    (set_ack_ts (Some t) r).

Definition binding_update (t : Z) (oldID : string) (did : option string)
    (r : Telemetry) : Telemetry :=
  push_log {| ts := t;
              msg := "♻️ Registry Updated: Replaced " +:+ oldID +:+ " with "
                       +:+ to_key did +:+ "." |}
    (push_log {| ts := t; msg := "📩 Encrypted SMS received at Bank Server." |}
       (set_ack_ts (Some t) r)).

Definition fallback_of (cb : TimerBody) : Channel :=
  match cb with
  | PushFallback _ ctx =>
      if truthy (ctx !! "whatsapp_opt_in") then WHATSAPP else SMS
  | WhatsappFallback _ => SMS
  end.

Definition fallback_update (t : Z) (fb : Channel) (r : Telemetry) : Telemetry :=
  if bool_decide (is_Some (ack_ts r)) then r
  else push_log {| ts := t;
                   msg := "No ACK -> Fallback to " +:+ channel_name fb |}
         (set_fallback_channel (Some fb) (set_fallback_triggered true r)).

(** ** Traces: what one step does to one event's record *)

(** The event id whose record the action creates (or replaces), if any. *)
Definition created_id (a : Action) : option string :=
  match a with
  | Call (Login _ _ uuid) => Some uuid
  | Call (SendNotification body uuid) => Some (dispatch_id body uuid)
  | _ => None
  end.

(** The action stamps [ack_ts] of event [e], should its record exist:
    /ack, or /complete-binding naming the event. *)
Definition acks (e : string) (a : Action) : bool :=
  match a with
  | Call (Ack eid _) => bool_decide (to_key eid = e)
  | Call (CompleteBinding _ _ eid) =>
      str_truthy eid && bool_decide (to_key eid = e)
  | _ => false
  end.

(** ** Acknowledgment against the escalation timer *)


(** No action of the trace creates the record of [e] anew. *)
Definition never_created (e : string) (tr : list Action) : Prop :=
  Forall (λ a, created_id a ≠ Some e) tr.




(** ** Sample requests *)

(** A dispatch that names only its event id.  For "demo_user", whose stored
    context has the app installed, in the background and online, it routes
    to PUSH. *)
Definition named_body (eid : string) : Body :=
  {| body_event_id := Some eid; body_user_id := None;
     body_event_type := None; body_user_context := ∅ |}.

(** The server 15 s after a first dispatch under the id "e1": its timer
    (handle 0, due at 20 s) is still pending. *)
Definition stale_state : State :=
  default init
    (run [Call (SendNotification (named_body "e1") "uuid-1"); Advance 15000]
       init).

(** ** The channel cascade as the specification words it *)

(** The context snapshot: four boolean flags. *)
Record Snapshot := {
  has_app : bool;
  is_active : bool;
  device_online : bool;
  whatsapp_opt_in : bool
}.

(** The flags a JS context object stands for, by truthiness. *)
Definition snapshot_of (ctx : jsobj) : Snapshot :=
  {| has_app := truthy (ctx !! "has_app");
     is_active := truthy (ctx !! "is_active");
     device_online := truthy (ctx !! "device_online");
     whatsapp_opt_in := truthy (ctx !! "whatsapp_opt_in") |}.

(** Rules 1 to 3, in priority order. *)
Definition rules : list ((Snapshot → bool) * Channel) :=
  [ (λ c, has_app c && is_active c && device_online c, IN_APP);
    (λ c, has_app c && device_online c, PUSH);
    (λ c, whatsapp_opt_in c && device_online c, WHATSAPP) ].

(** The first matching rule wins; rule 4 (SMS) when none matches. *)
Definition select_spec (c : Snapshot) : Channel :=
  match List.find (λ rule, fst rule c) rules with
  | Some rule => snd rule
  | None => SMS
  end.

(** The channel of a dispatch response, and whether a response is an
    error. *)
Definition resp_channel (r : Response) : option Channel :=
  match r with
  | RespDispatch _ ch _ => Some ch
  | _ => None
  end.

Definition is_error (r : Response) : bool :=
  match r with
  | RespError _ _ => true
  | _ => false
  end.

(** A dispatch for "demo_user" whose caller says the user is active in the
    app. *)
Definition active_body : Body :=
  {| body_event_id := None; body_user_id := Some "demo_user";
     body_event_type := None;
     body_user_context :=
       <["has_app" := JBool true]>
       (<["is_active" := JBool true]>
       (<["device_online" := JBool true]> ∅)) |}.

(** A dispatch with an empty body. *)
Definition empty_body : Body :=
  {| body_event_id := None; body_user_id := None;
     body_event_type := None; body_user_context := ∅ |}.

(** ** Sample scenarios for the login flow and the inbox *)

(** The simulator toggle set to an unrecognised device for "demo_user", as
    the login page does through /update-context. *)
Definition toggled_new : State :=
  snd (update_context (Some "demo_user")
         (<["device_status" := JStr "NEW"]> ∅) init).

(** The same event id dispatched twice for "demo_user". *)
Definition dispatched_twice : State :=
  default init
    (run [Call (SendNotification (named_body "e1") "uuid-1");
          Call (SendNotification (named_body "e1") "uuid-2")] init).

(** ** Acknowledgment timestamps *)

(** [ack_ts] of event [e] in [s]; [None] also when there is no record. *)
Definition ack_ts_of (e : string) (s : State) : option Z :=
  TELEMETRY s !! e ≫= ack_ts.

(** No action of the trace stamps [ack_ts] of [e]. *)
Definition never_acked (e : string) (tr : list Action) : Prop :=
  Forall (λ a, acks e a = false) tr.

(** The event [e] is acknowledged in [s], at a time between [t] and now. *)
Definition acked_since (e : string) (t : Z) (s : State) : Prop :=
  ∃ t', ack_ts_of e s = Some t' ∧ t ≤ t' ≤ clock s.

(** ** Counting timers *)

(** The number of timers pending against [e]. *)
Definition pending_for (e : string) (s : State) : nat :=
  length (filter (λ t, tm_event t = e) (timers s)).

(** Whether the dispatch is one under event id [e] that takes the PUSH or
    the WHATSAPP branch in [s]. *)
Definition arms (e : string) (a : Action) (s : State) : bool :=
  match a with
  | Call (SendNotification body uuid) =>
      bool_decide (dispatch_id body uuid = e)
      && match route (dispatch_ctx body s) with
         | PUSH | WHATSAPP => true
         | _ => false
         end
  | _ => false
  end.

(** The number of such dispatches along the run of [tr] from [s]. *)
Fixpoint armings (e : string) (tr : list Action) (s : State) : nat :=
  match tr with
  | [] => 0
  | a :: tr' =>
      ((if arms e a s then 1 else 0) +
       match step a s with
       | Some s' => armings e tr' s'
       | None => 0
       end)%nat
  end.

(** ** Escalation *)


(** Timer handles handed out so far lie below the next one. *)
Definition timers_fresh (s : State) : Prop :=
  Forall (λ t, (tm_id t < next_timer s)%nat) (timers s).

(** The timer [own] is pending in [s], and is the only one under its
    handle. *)
Definition holds_timer (own : Timer) (s : State) : Prop :=
  own ∈ timers s
  ∧ (∀ t, t ∈ timers s → tm_id t = tm_id own → t = own)
  ∧ (tm_id own < next_timer s)%nat.

(** The trace does not fire the timer with handle [n]. *)
Definition never_fired (n : nat) (tr : list Action) : Prop :=
  Forall (λ a, a ≠ Fire n) tr.


(** A dispatch for a user without stored context who has WhatsApp only. *)
Definition whatsapp_body : Body :=
  {| body_event_id := Some "e2"; body_user_id := Some "alice";
     body_event_type := None;
     body_user_context :=
       <["whatsapp_opt_in" := JBool true]>
       (<["device_online" := JBool true]> ∅) |}.

(** ** Dispatching an event id again *)

(** The record of [e] in [s] is the one stamped as sent at time [t] on
    channel [ch]. *)
Definition sent_as (e : string) (t : Z) (ch : Channel) (s : State) : Prop :=
  ∃ r, TELEMETRY s !! e = Some r ∧ sent_ts r = Some t
       ∧ chosen_channel r = Some ch.

(** ** Reachable states and the life of a record *)

(** The states the server can be in: any run of the event loop from the
    stores as initialised at some start time. *)
Definition reachable (s : State) : Prop :=
  ∃ t0 tr, run tr (init_at t0) = Some s.

(** The record [r] as a request handled at time [t] creates it under the
    key [k]: stamped as sent at [t], a channel decided, logged, neither
    acknowledged nor escalated. *)
Definition created (t : Z) (k : string) (r : Telemetry) : Prop :=
  event_id r = k ∧ sent_ts r = Some t ∧ ack_ts r = None
  ∧ fallback_triggered r = false ∧ fallback_channel r = None
  ∧ (∃ c, chosen_channel r = Some c ∧ c ≠ ANALYZING)
  ∧ logs r ≠ [] ∧ Forall (λ e, ts e = t) (logs r).

(** The record [r'] is [r] after a handler or a timer callback ran at time
    [t] without creating it anew. *)
Definition evolves (t : Z) (r r' : Telemetry) : Prop :=
  event_id r' = event_id r ∧ user_id r' = user_id r
  ∧ event_type r' = event_type r
  ∧ chosen_channel r' = chosen_channel r ∧ sent_ts r' = sent_ts r
  ∧ (∃ l, logs r' = logs r ++ l ∧ Forall (λ e, ts e = t) l)
  ∧ (ack_ts r' = ack_ts r ∨ ack_ts r' = Some t)
  ∧ ((fallback_triggered r' = fallback_triggered r
      ∧ fallback_channel r' = fallback_channel r)
     ∨ (ack_ts r = None ∧ ack_ts r' = None ∧ fallback_triggered r' = true
        ∧ (fallback_channel r' = Some WHATSAPP
           ∨ fallback_channel r' = Some SMS))).

(** The log entries are in time order. *)
Definition chronological (l : list LogEntry) : Prop :=
  StronglySorted (λ a b, ts a ≤ ts b) l.

(** What holds of every record [r] stored under [k] when the clock reads
    [clk], in a server started at [t0]. *)
Definition record_ok (t0 clk : Z) (k : string) (r : Telemetry) : Prop :=
  event_id r = k
  ∧ (∃ c, chosen_channel r = Some c ∧ c ≠ ANALYZING)
  ∧ logs r ≠ []
  ∧ (∃ t, sent_ts r = Some t ∧ t0 ≤ t ≤ clk
          ∧ (∀ ta, ack_ts r = Some ta → t ≤ ta ≤ clk)
          ∧ Forall (λ e, t ≤ ts e ≤ clk) (logs r))
  ∧ chronological (logs r)
  ∧ ((fallback_triggered r = false ∧ fallback_channel r = None)
     ∨ (fallback_triggered r = true
        ∧ (fallback_channel r = Some WHATSAPP
           ∨ fallback_channel r = Some SMS))).

Definition records_ok (t0 : Z) (s : State) : Prop :=
  t0 ≤ clock s
  ∧ ∀ k r, TELEMETRY s !! k = Some r → record_ok t0 (clock s) k r.

(** A short session: a PUSH dispatch under "e1", a login, the login
    acknowledged, and the dispatch's timer firing unanswered. *)
Definition busy_trace : list Action :=
  [Call (SendNotification (named_body "e1") "uuid-1"); Advance 1000;
   Call (Login (Some "demo_user") (Some "device_999") "uuid-2"); Advance 500;
   Call (Ack (Some "uuid-2") (Some "IN_APP")); Advance 20000; Fire 0%nat].

Definition busy_state : State := default init (run busy_trace init).

(** The record [r'] is a later stage of [r]: same identity and routing,
    a longer log, escalation and acknowledgment not undone. *)
Definition grown (r r' : Telemetry) : Prop :=
  event_id r' = event_id r ∧ user_id r' = user_id r
  ∧ event_type r' = event_type r
  ∧ chosen_channel r' = chosen_channel r ∧ sent_ts r' = sent_ts r
  ∧ logs r `prefix_of` logs r'
  ∧ (fallback_triggered r = true → fallback_triggered r' = true)
  ∧ (is_Some (ack_ts r) → is_Some (ack_ts r')).

(** The state right after the first dispatch of [busy_trace], and what
    follows it. *)
Definition busy_start : State :=
  snd (send_notification (named_body "e1") "uuid-1" init).

Definition busy_rest : list Action := tail busy_trace.

(** A late acknowledgment of "e1", after its timer has fired. *)
Definition late_ack : list Action :=
  [Call (Ack (Some "e1") (Some "PUSH")); Advance 10].

(** ** The two indexes *)

(** [EVENT_ORDER] lists exactly the stored ids, each once, and every id in
    a user's list has a record. *)
Definition indexes_ok (s : State) : Prop :=
  NoDup (EVENT_ORDER s)
  ∧ (∀ k, k ∈ EVENT_ORDER s ↔ is_Some (TELEMETRY s !! k))
  ∧ (∀ u l k, USER_EVENTS s !! u = Some l → k ∈ l →
              is_Some (TELEMETRY s !! k)).

(** The records of a response that lists some. *)
Definition resp_records (r : Response) : list Telemetry :=
  match r with
  | RespEvents _ evs => evs
  | RespInbox msgs => msgs
  | _ => []
  end.

Definition resp_count (r : Response) : option nat :=
  match r with
  | RespEvents n _ => Some n
  | _ => None
  end.

(** A dispatch by another user, "mallory", under the id "e1" that
    "demo_user" already has in the inbox. *)
Definition foreign_body : Body :=
  {| body_event_id := Some "e1"; body_user_id := Some "mallory";
     body_event_type := Some "TXN_ALERT"; body_user_context := ∅ |}.

(** ** Pending timers *)

(** Every pending timer has its own handle, a record to act on, and a
    deadline at most one timeout away. *)
Definition timers_ok (s : State) : Prop :=
  NoDup (tm_id <$> timers s)
  ∧ timers_fresh s
  ∧ ∀ t, t ∈ timers s →
         is_Some (TELEMETRY s !! tm_event t)
         ∧ tm_due t ≤ clock s + WHATSAPP_TIMEOUT_MS.

(** "e1" dispatched on PUSH, acknowledged at once, and its deadline
    reached with the timer still pending. *)
Definition acked_state : State :=
  default init
    (run [Call (SendNotification (named_body "e1") "uuid-1");
          Call (Ack (Some "e1") (Some "PUSH")); Advance 20000] init).

(** ** Which handler writes which store *)

Definition binds (a : Action) : bool :=
  match a with
  | Call (CompleteBinding _ _ _) => true
  | _ => false
  end.

Definition updates_context (a : Action) : bool :=
  match a with
  | Call (UpdateContext _ _) => true
  | _ => false
  end.

(** ** Sample requests for the edge cases *)

(** A full context saying: app installed, user active, online. *)
Definition present_context : jsobj :=
  <["has_app" := JBool true]>
  (<["is_active" := JBool true]>
  (<["device_online" := JBool true]>
  (<["whatsapp_opt_in" := JBool false]> ∅))).

(** A caller who claims the opposite: nothing installed, offline. *)
Definition absent_body : Body :=
  {| body_event_id := None; body_user_id := Some "demo_user";
     body_event_type := None;
     body_user_context :=
       <["has_app" := JBool false]> (<["device_online" := JBool false]> ∅) |}.

(** ** How the primitives and handlers act on the stores *)

Lemma State_ext (s1 s2 : State) :
  TELEMETRY s1 = TELEMETRY s2 → USER_EVENTS s1 = USER_EVENTS s2 →
  EVENT_ORDER s1 = EVENT_ORDER s2 → USER_DB s1 = USER_DB s2 →
  DEVICE_CONTEXT_STORE s1 = DEVICE_CONTEXT_STORE s2 → clock s1 = clock s2 →
  timers s1 = timers s2 → next_timer s1 = next_timer s2 → s1 = s2.
Proof. destruct s1, s2; cbn; intros; by subst. Qed.

(** Reads of a store after a chain of primitive updates. *)
Ltac store_simpl :=
  cbn [now write_record create_record with_TELEMETRY setTimeout
       pushUserEvent note_order set_USER_DB set_DEVICE_CONTEXT set_clock
       set_timers TELEMETRY USER_EVENTS EVENT_ORDER USER_DB
       DEVICE_CONTEXT_STORE clock timers next_timer event_id fst snd].

Lemma recordLog_eq eid m s :
  recordLog eid m s = write_record eid (push_log {| ts := clock s; msg := m |}) s.
Proof.
  unfold recordLog.
  destruct (TELEMETRY s !! eid) eqn:E; [done|].
  apply State_ext; store_simpl; try done.
  by rewrite alter_id'.
Qed.

Lemma send_notification_unfold body uuid s :
  let eid := dispatch_id body uuid in
  let ch := route (dispatch_ctx body s) in
  let r := dispatched_record body uuid (clock s) ch in
  send_notification body uuid s =
    (RespDispatch eid ch (Some r),
     {| TELEMETRY := <[eid := r]> (TELEMETRY s);
        USER_EVENTS := USER_EVENTS
          (pushUserEvent (or_str (body_user_id body) "demo_user") eid s);
        EVENT_ORDER := EVENT_ORDER (note_order eid s);
        USER_DB := USER_DB s;
        DEVICE_CONTEXT_STORE := DEVICE_CONTEXT_STORE s;
        clock := clock s;
        timers := timers s ++ armed body uuid s;
        next_timer := (next_timer s + length (armed body uuid s))%nat |}).
Proof.
  intros eid ch r. subst ch r. unfold send_notification, armed, route.
  fold eid. set (ctx := dispatch_ctx body s).
  destruct (truthy (ctx !! "has_app")), (truthy (ctx !! "is_active")),
    (truthy (ctx !! "device_online")), (truthy (ctx !! "whatsapp_opt_in"));
    cbn [andb]; rewrite !recordLog_eq;
    (f_equal; [|apply State_ext]); store_simpl;
    rewrite ?alter_alter_eq, ?alter_insert_eq, ?lookup_insert_eq;
    cbn [length]; rewrite ?app_nil_r, ?Nat.add_0_r, ?Nat.add_1_r;
    reflexivity.
Qed.

Lemma login_unfold uid did uuid s :
  let known := device_known uid s in
  login uid did uuid s =
    ((if known then RespLogin "TRUSTED" uuid IN_APP None "Device Verified."
      else RespLogin "BINDING_REQUIRED" uuid SMS_BINDING
             (Some "+919999999999") "Binding Required."),
     {| TELEMETRY :=
          <[uuid := login_record uid did uuid (clock s) known]> (TELEMETRY s);
        USER_EVENTS := USER_EVENTS (pushUserEvent (to_key uid) uuid s);
        EVENT_ORDER := EVENT_ORDER (note_order uuid s);
        USER_DB := USER_DB s;
        DEVICE_CONTEXT_STORE := DEVICE_CONTEXT_STORE s;
        clock := clock s; timers := timers s;
        next_timer := next_timer s |}).
Proof.
  intros known. subst known. unfold login, device_known.
  destruct (strict_eq_str _ _);
    rewrite !recordLog_eq; (f_equal; apply State_ext); store_simpl;
    rewrite ?alter_alter_eq, ?alter_insert_eq; reflexivity.
Qed.

Lemma ack_unfold eid channel s :
  ack eid channel s =
    (RespOk,
     with_TELEMETRY (alter (ack_update (clock s) channel) (to_key eid)) s).
Proof.
  unfold ack. f_equal. case_bool_decide as E.
  - rewrite recordLog_eq. apply State_ext; store_simpl; try reflexivity.
    by rewrite alter_alter_eq.
  - apply State_ext; store_simpl; try reflexivity.
    rewrite alter_id'; [done|].
    destruct (TELEMETRY s !! to_key eid) eqn:F; [|done]. by destruct E.
Qed.

Lemma complete_binding_unfold uid did eid s :
  let oldID :=
    or_str (USER_DB s !! to_key uid ≫= registered_device_id) "none" in
  complete_binding uid did eid s =
    (RespOk,
     set_USER_DB (to_key uid)
       {| registered_device_id := did; is_registered := true |}
       (with_TELEMETRY
          (if str_truthy eid
           then alter (binding_update (clock s) oldID did) (to_key eid)
           else λ m, m) s)).
Proof.
  intros oldID. unfold complete_binding. fold oldID. f_equal.
  destruct (str_truthy eid); cbn [andb].
  - store_simpl. case_bool_decide as E.
    + rewrite !recordLog_eq. apply State_ext; store_simpl; try reflexivity.
      by rewrite !alter_alter_eq.
    + apply State_ext; store_simpl; try reflexivity.
      rewrite alter_id'; [done|].
      destruct (TELEMETRY s !! to_key eid) eqn:F; [|done]. by destruct E.
  - by apply State_ext.
Qed.

Lemma fallback_write_unfold eid fb s :
  match TELEMETRY s !! eid with
  | None => s
  | Some r =>
      if bool_decide (is_Some (ack_ts r)) then s
      else
        let s := write_record eid (set_fallback_triggered true) s in
        let s := write_record eid (set_fallback_channel (Some fb)) s in
        recordLog eid ("No ACK -> Fallback to " +:+ channel_name fb) s
  end = with_TELEMETRY (alter (fallback_update (clock s) fb) eid) s.
Proof.
  destruct (TELEMETRY s !! eid) as [r|] eqn:E.
  - case_bool_decide as A.
    + apply State_ext; store_simpl; try reflexivity.
      rewrite alter_id; [done|]. intros x Hx.
      assert (x = r) as -> by congruence.
      unfold fallback_update. by rewrite bool_decide_eq_true_2.
    + cbv zeta. rewrite recordLog_eq.
      apply State_ext; store_simpl; try reflexivity.
      rewrite !alter_alter_eq. apply alter_ext. intros x Hx.
      assert (x = r) as -> by congruence.
      unfold fallback_update. by rewrite bool_decide_eq_false_2.
  - apply State_ext; store_simpl; try reflexivity. by rewrite alter_id'.
Qed.

Lemma timer_callback_unfold cb s :
  timer_callback cb s =
    with_TELEMETRY
      (alter (fallback_update (clock s) (fallback_of cb)) (cb_event cb)) s.
Proof.
  destruct cb as [eid ctx|eid]; cbn [timer_callback fallback_of cb_event].
  - apply fallback_write_unfold.
  - apply (fallback_write_unfold eid SMS).
Qed.

(** ** Traces: what one step does to one event's record *)

Lemma handle_clock r s : clock (snd (handle r s)) = clock s.
Proof.
  destruct r; cbn [handle snd]; try reflexivity.
  - by rewrite login_unfold.
  - by rewrite complete_binding_unfold.
  - by rewrite send_notification_unfold.
  - by rewrite ack_unfold.
Qed.

Lemma step_clock a s s' : step a s = Some s' → clock s ≤ clock s'.
Proof.
  destruct a as [r|dt|id]; cbn [step].
  - intros [= <-]. rewrite handle_clock. lia.
  - case_bool_decide; [|done]. intros [= <-]. store_simpl. lia.
  - destruct (find_timer id (timers s)); [|done].
    case_bool_decide; [|done]. intros [= <-].
    rewrite timer_callback_unfold. store_simpl. lia.
Qed.


Lemma step_timers a s s' :
  step a s = Some s' →
  timers s' =
    match a with
    | Call (SendNotification body uuid) => timers s ++ armed body uuid s
    | Fire id => remove_timer id (timers s)
    | _ => timers s
    end.
Proof.
  destruct a as [r|dt|id]; cbn [step].
  - intros [= <-]. destruct r; cbn [handle snd]; try reflexivity.
    + by rewrite login_unfold.
    + by rewrite complete_binding_unfold.
    + by rewrite send_notification_unfold.
    + by rewrite ack_unfold.
  - case_bool_decide; [|done]. by intros [= <-].
  - destruct (find_timer id (timers s)); [|done].
    case_bool_decide; [|done]. intros [= <-].
    by rewrite timer_callback_unfold.
Qed.


(** A step that does not create the record of [e] keeps it, and changes
    its [ack_ts] and [fallback_triggered] only as follows. *)
Lemma step_keeps a s s' e r :
  step a s = Some s' → created_id a ≠ Some e →
  TELEMETRY s !! e = Some r →
  ∃ r', TELEMETRY s' !! e = Some r'
    ∧ ack_ts r' = (if acks e a then Some (clock s) else ack_ts r)
    ∧ (fallback_triggered r' = fallback_triggered r
       ∨ fallback_triggered r' = true ∧ ack_ts r = None
         ∧ ∃ id t, a = Fire id ∧ t ∈ timers s ∧ tm_event t = e
                   ∧ tm_due t ≤ clock s).
Proof.
  intros Hstep Hc Hr. destruct a as [rq|dt|id]; cbn [step] in Hstep.
  - injection Hstep as <-.
    destruct rq; cbn [handle snd acks created_id] in *; eauto 10.
    + rewrite login_unfold; store_simpl.
      rewrite lookup_insert_ne by congruence. eauto 10.
    + rewrite complete_binding_unfold; store_simpl.
      destruct (str_truthy eid); cbn [andb]; [|eauto 10].
      rewrite lookup_alter. case_decide as Heq; [subst e|]; rewrite Hr;
        case_bool_decide; try done;
        cbn [fmap option_fmap option_map]; eauto 10.
    + rewrite send_notification_unfold; store_simpl.
      rewrite lookup_insert_ne by congruence. eauto 10.
    + rewrite ack_unfold; store_simpl.
      rewrite lookup_alter. case_decide as Heq; [subst e|]; rewrite Hr;
        case_bool_decide; try done;
        cbn [fmap option_fmap option_map]; eauto 10.
  - case_bool_decide; [|done]. injection Hstep as <-. store_simpl. eauto 10.
  - destruct (find_timer id (timers s)) as [t|] eqn:Ft; [|done].
    case_bool_decide as Hdue; [|done]. injection Hstep as <-.
    rewrite timer_callback_unfold; store_simpl. cbn [acks].
    rewrite lookup_alter. case_decide as Heq; [|eauto 10].
    rewrite <- Heq in Hr. rewrite Hr.
    cbn [fmap option_fmap option_map].
    unfold fallback_update. case_bool_decide as Hack; [eauto 10|].
    eexists; split; [done|]. split; [done|]. right.
    split; [done|]. split.
    { destruct (ack_ts r); [|done]. by destruct Hack. }
    exists id, t. split; [done|].
    unfold find_timer in Ft. apply head_Some_elem_of in Ft.
    apply list_elem_of_filter in Ft as [_ Ht]. done.
Qed.

(** ** Acknowledgment against the escalation timer *)

Lemma armed_event body uuid s t :
  t ∈ armed body uuid s →
  tm_event t = dispatch_id body uuid
  ∧ tm_due t = clock s + WHATSAPP_TIMEOUT_MS
  ∧ tm_id t = next_timer s.
Proof.
  unfold armed. destruct (route _);
    rewrite ?list_elem_of_singleton; try (intros ->; done);
    by intros ?%elem_of_nil.
Qed.

Section ack_before_deadline.
Variable e : string.






End ack_before_deadline.





(** ** Channel selection *)

Lemma route_select_spec ctx : route ctx = select_spec (snapshot_of ctx).
Proof.
  unfold route, select_spec, snapshot_of, rules.
  cbn [List.find fst snd has_app is_active device_online whatsapp_opt_in].
  by destruct (truthy (ctx !! "has_app")), (truthy (ctx !! "is_active")),
    (truthy (ctx !! "device_online")), (truthy (ctx !! "whatsapp_opt_in")).
Qed.

Lemma send_notification_fst body uuid s :
  fst (send_notification body uuid s) =
    RespDispatch (dispatch_id body uuid) (route (dispatch_ctx body s))
      (Some (dispatched_record body uuid (clock s)
               (route (dispatch_ctx body s)))).
Proof. by rewrite send_notification_unfold. Qed.

Lemma send_notification_lookup body uuid s :
  TELEMETRY (snd (send_notification body uuid s)) !! dispatch_id body uuid =
    Some (dispatched_record body uuid (clock s) (route (dispatch_ctx body s))).
Proof.
  rewrite send_notification_unfold. store_simpl. apply lookup_insert_eq.
Qed.


(** ** The context a dispatch routes on *)

(** C8, as amended: the stored simulated context overrides the caller's
    snapshot.  Each key is read from the stored context of the user when it
    defines the key, and from the caller-supplied context only otherwise;
    the channel is the cascade on the result. *)
Theorem stored_context_overrides_caller body uuid s :
  let stored : jsobj :=
    default ∅ (DEVICE_CONTEXT_STORE s
                 !! or_str (body_user_id body) "demo_user") in
  (∀ k, dispatch_ctx body s !! k =
          match stored !! k with
          | Some v => Some v
          | None => body_user_context body !! k
          end)
  ∧ resp_channel (fst (send_notification body uuid s)) =
      Some (select_spec (snapshot_of (dispatch_ctx body s))).
Proof.
  intros stored. split.
  - intros k. unfold dispatch_ctx, spread. fold stored.
    rewrite lookup_union. by destruct (stored !! k), (body_user_context body !! k).
  - rewrite send_notification_fst, route_select_spec. done.
Qed.

(** C8 as stated fails for "demo_user" from the start: the caller says
    [is_active: true], the stored context says [false] and wins, so the
    dispatch goes to PUSH where the caller's own values select IN_APP. *)
Lemma caller_context_is_overridden :
  body_user_context active_body !! "is_active" = Some (JBool true)
  ∧ dispatch_ctx active_body init !! "is_active" = Some (JBool false)
  ∧ select_spec (snapshot_of (body_user_context active_body)) = IN_APP
  ∧ resp_channel (fst (send_notification active_body "uuid-1" init))
    = Some PUSH.
Proof. repeat split; vm_compute; reflexivity. Qed.

(** ** Missing user id *)

Lemma dispatch_default_user body uuid s :
  body_user_id body = None →
  ∃ r,
    fst (send_notification body uuid s) =
      RespDispatch (dispatch_id body uuid) (route (dispatch_ctx body s))
        (Some r)
    ∧ user_id r = Some "demo_user"
    ∧ TELEMETRY (snd (send_notification body uuid s)) !! dispatch_id body uuid
      = Some r.
Proof.
  intros Hu. eexists. split; [apply send_notification_fst|].
  split; [|apply send_notification_lookup].
  unfold dispatched_record. cbn [user_id]. by rewrite Hu.
Qed.

(** C9, as amended: a dispatch request without [user_id] is processed for
    the default user "demo_user": it creates the record under that user and
    answers with a successful dispatch result, never with an error. *)
Theorem dispatch_without_user_id_defaults body uuid s :
  body_user_id body = None →
  ∃ ch r,
    fst (send_notification body uuid s) =
      RespDispatch (dispatch_id body uuid) ch (Some r)
    ∧ is_error (fst (send_notification body uuid s)) = false
    ∧ user_id r = Some "demo_user"
    ∧ TELEMETRY (snd (send_notification body uuid s)) !! dispatch_id body uuid
      = Some r.
Proof.
  intros Hu. destruct (dispatch_default_user body uuid s Hu) as (r & H1 & H2 & H3).
  exists (route (dispatch_ctx body s)), r. rewrite H1. done.
Qed.

Lemma dispatch_without_user_id_defaults_witness :
  body_user_id empty_body = None
  ∧ ∃ ch r,
      fst (send_notification empty_body "uuid-1" init) =
        RespDispatch "uuid-1" ch (Some r)
      ∧ is_error (fst (send_notification empty_body "uuid-1" init)) = false
      ∧ user_id r = Some "demo_user"
      ∧ TELEMETRY (snd (send_notification empty_body "uuid-1" init))
          !! "uuid-1" = Some r.
Proof.
  split; [reflexivity|].
  exact (dispatch_without_user_id_defaults empty_body "uuid-1" init eq_refl).
Defined.

(** C9 as stated fails: the empty request is answered with a PUSH dispatch
    result for "demo_user", and its record is in the store. *)
Lemma dispatch_without_user_id_is_processed :
  body_user_id empty_body = None
  ∧ fst (send_notification empty_body "uuid-1" init) =
      RespDispatch "uuid-1" PUSH
        (Some (dispatched_record empty_body "uuid-1" 0 PUSH))
  ∧ user_id (dispatched_record empty_body "uuid-1" 0 PUSH) = Some "demo_user"
  ∧ TELEMETRY (snd (send_notification empty_body "uuid-1" init)) !! "uuid-1"
    = Some (dispatched_record empty_body "uuid-1" 0 PUSH).
Proof. repeat split; vm_compute; reflexivity. Qed.

(** ** Login after binding *)

Lemma complete_binding_context uid did eid s :
  DEVICE_CONTEXT_STORE (snd (complete_binding uid did eid s))
  = DEVICE_CONTEXT_STORE s.
Proof. by rewrite complete_binding_unfold. Qed.

(** C5, as amended: /login classifies by the simulator flag
    [device_status] stored for the user, not by the device id or the
    registry.  /complete-binding replaces the user's registered device id
    and leaves that flag alone, so a login after it answers TRUSTED on
    IN_APP exactly when the stored flag is 'KNOWN', and BINDING_REQUIRED on
    SMS_BINDING otherwise, whichever device was bound. *)
Theorem login_after_binding_follows_flag uid did eid uuid did' s :
  let s1 := snd (complete_binding uid did eid s) in
  USER_DB s1 !! to_key uid
    = Some {| registered_device_id := did; is_registered := true |}
  ∧ fst (login uid did' uuid s1) =
      if device_known uid s
      then RespLogin "TRUSTED" uuid IN_APP None "Device Verified."
      else RespLogin "BINDING_REQUIRED" uuid SMS_BINDING
             (Some "+919999999999") "Binding Required.".
Proof.
  intros s1. subst s1. split.
  - rewrite complete_binding_unfold. store_simpl. apply lookup_insert_eq.
  - rewrite login_unfold. cbn [fst]. unfold device_known.
    by rewrite complete_binding_context.
Qed.

(** C5 as stated fails once the simulator flag says 'NEW': "device_999" is
    bound for "demo_user", and the login from that very device is still
    answered BINDING_REQUIRED. *)
Lemma login_after_binding_untrusted :
  let s1 := snd (complete_binding (Some "demo_user") (Some "device_999")
                   None toggled_new) in
  (USER_DB s1 !! "demo_user" ≫= registered_device_id) = Some "device_999"
  ∧ fst (login (Some "demo_user") (Some "device_999") "uuid-1" s1) =
      RespLogin "BINDING_REQUIRED" "uuid-1" SMS_BINDING
        (Some "+919999999999") "Binding Required.".
Proof. split; vm_compute; reflexivity. Qed.

(** ** The inbox *)

(** C6 (the code departs from it): after the id "e1" is dispatched twice
    for "demo_user", the inbox lists that event twice.  [pushUserEvent]
    appends without the [includes] test that guards [EVENT_ORDER]. *)
Theorem inbox_lists_redispatched_id_twice :
  event_id <$> inbox "demo_user" dispatched_twice = ["e1"; "e1"]
  ∧ EVENT_ORDER dispatched_twice = ["e1"].
Proof. split; vm_compute; reflexivity. Qed.

(** ** Acknowledgment timestamps *)

Section ack_timestamps.
Variable e : string.

Lemma ack_ts_of_Some s t :
  ack_ts_of e s = Some t ↔ ∃ r, TELEMETRY s !! e = Some r ∧ ack_ts r = Some t.
Proof.
  unfold ack_ts_of. destruct (TELEMETRY s !! e) as [r|]; cbn [mbind option_bind].
  - split; [eauto|]. by intros (? & [= <-] & ?).
  - split; [done|]. by intros (? & ? & ?).
Qed.

Lemma ack_ts_step a s s' t :
  step a s = Some s' → created_id a ≠ Some e → ack_ts_of e s = Some t →
  ack_ts_of e s' = if acks e a then Some (clock s) else Some t.
Proof.
  intros Hstep Hc (r & Hr & Ht)%ack_ts_of_Some.
  destruct (step_keeps _ _ _ _ _ Hstep Hc Hr) as (r' & Hr' & Hack & _).
  unfold ack_ts_of. rewrite Hr'. cbn [mbind option_bind]. rewrite Hack, Ht.
  by destruct (acks e a).
Qed.

Lemma acked_since_step a s s' t :
  step a s = Some s' → created_id a ≠ Some e →
  acked_since e t s → acked_since e t s'.
Proof.
  intros Hstep Hc (t' & Ht' & Hle).
  pose proof (step_clock _ _ _ Hstep) as Hclk.
  unfold acked_since. rewrite (ack_ts_step _ _ _ _ Hstep Hc Ht').
  destruct (acks e a); eexists; (split; [done|]); lia.
Qed.

Lemma acked_since_run tr s s' t :
  run tr s = Some s' → never_created e tr →
  acked_since e t s → acked_since e t s'.
Proof.
  revert s. induction tr as [|a tr IH]; intros s; cbn [run].
  - by intros [= <-].
  - destruct (step a s) as [s1|] eqn:E; [|done].
    intros Hrun [Ha Htr]%Forall_cons Hinv.
    apply (IH s1); [done..|]. by apply (acked_since_step a s).
Qed.

Lemma ack_ts_quiet_run tr s s' t :
  run tr s = Some s' → never_created e tr → never_acked e tr →
  ack_ts_of e s = Some t → ack_ts_of e s' = Some t.
Proof.
  revert s. induction tr as [|a tr IH]; intros s; cbn [run].
  - by intros [= <-].
  - destruct (step a s) as [s1|] eqn:E; [|done].
    intros Hrun [Ha Htr]%Forall_cons [Hq Hqtr]%Forall_cons Ht.
    apply (IH s1); [done..|].
    rewrite (ack_ts_step _ _ _ _ E Ha Ht). by rewrite Hq.
Qed.

End ack_timestamps.

(** C4, as amended: every acknowledge stamps [ack_ts] with the time of that
    call, so the last acknowledgment is the one that shows, not the first.
    Once [ack_ts] is set, and as long as the event id is not dispatched
    again, it stays set, it never moves back in time, and without a further
    acknowledgment (or /complete-binding naming the event) it does not
    change at all. *)
Theorem ack_ts_last_writer_wins e :
  (∀ s channel,
     is_Some (TELEMETRY s !! e) →
     ack_ts_of e (snd (ack (Some e) channel s)) = Some (clock s))
  ∧ (∀ tr s s' t,
       ack_ts_of e s = Some t → t ≤ clock s →
       run tr s = Some s' → never_created e tr →
       acked_since e t s'
       ∧ (never_acked e tr → ack_ts_of e s' = Some t)).
Proof.
  split.
  - intros s channel [r Hr]. rewrite ack_unfold. unfold ack_ts_of.
    store_simpl. cbn [to_key]. rewrite lookup_alter_eq, Hr. done.
  - intros tr s s' t Ht Hle Hrun Hc. split.
    + apply (acked_since_run e tr s); [done..|]. exists t. split; [done|lia].
    + intros Hq. by apply (ack_ts_quiet_run e tr s).
Qed.

Lemma ack_ts_last_writer_wins_witness :
  let s := snd (ack (Some "e1") (Some "PUSH") dispatched_twice) in
  let tr := [Advance 20000; Fire 0%nat] in
  is_Some (TELEMETRY dispatched_twice !! "e1")
  ∧ ack_ts_of "e1" s = Some 0 ∧ 0 ≤ clock s
  ∧ never_created "e1" tr ∧ never_acked "e1" tr
  ∧ ack_ts_of "e1" s = Some (clock dispatched_twice)
  ∧ ∃ s', run tr s = Some s'
          ∧ acked_since "e1" 0 s' ∧ ack_ts_of "e1" s' = Some 0.
Proof.
  intros s tr.
  assert (is_Some (TELEMETRY dispatched_twice !! "e1")) as H0
    by (vm_compute; eauto).
  assert (ack_ts_of "e1" s = Some 0) as H1 by (vm_compute; reflexivity).
  assert (0 ≤ clock s) as H2 by (vm_compute; discriminate).
  assert (never_created "e1" tr) as H3 by (repeat constructor; done).
  assert (never_acked "e1" tr) as H4 by (repeat constructor; done).
  do 5 (split; [done|]).
  destruct (ack_ts_last_writer_wins "e1") as [Ha Hb].
  split; [exact (Ha dispatched_twice (Some "PUSH") H0)|].
  assert (∃ s', run tr s = Some s') as [s' Hrun]
    by (eexists; vm_compute; reflexivity).
  exists s'. split; [exact Hrun|].
  destruct (Hb tr s s' 0 H1 H2 Hrun H3) as [Hs Hq].
  split; [exact Hs|exact (Hq H4)].
Defined.

(** C4 as stated fails: a second acknowledge one second after the first
    leaves [ack_ts] at the time of the second, where a single acknowledge
    leaves it at the time of the first. *)
Lemma second_ack_overwrites_first :
  (run [Call (SendNotification (named_body "e1") "uuid-1");
        Call (Ack (Some "e1") (Some "PUSH")); Advance 1000] init
     ≫= ack_ts_of "e1") = Some 0
  ∧ (run [Call (SendNotification (named_body "e1") "uuid-1");
          Call (Ack (Some "e1") (Some "PUSH")); Advance 1000;
          Call (Ack (Some "e1") (Some "PUSH"))] init
       ≫= ack_ts_of "e1") = Some 1000.
Proof. split; vm_compute; reflexivity. Qed.

(** ** Counting timers *)

Lemma armed_length body uuid s :
  length (armed body uuid s) =
    match route (dispatch_ctx body s) with
    | PUSH | WHATSAPP => 1%nat
    | _ => 0%nat
    end.
Proof. unfold armed. by destruct (route _). Qed.

Lemma filter_none {A} (P : A → Prop) `{!∀ x, Decision (P x)} (l : list A) :
  Forall (λ x, ¬ P x) l → filter P l = [].
Proof.
  induction 1 as [|x l Hx _ IH]; [done|]. by rewrite filter_cons_False.
Qed.

Lemma length_filter_sub {A} (P Q : A → Prop)
    `{!∀ x, Decision (P x), !∀ x, Decision (Q x)} (l : list A) :
  (length (filter P (filter Q l)) ≤ length (filter P l))%nat.
Proof.
  induction l as [|x l IH]; [done|].
  rewrite (filter_cons Q). destruct (decide (Q x)).
  - rewrite !(filter_cons P). destruct (decide (P x)); cbn [length]; lia.
  - rewrite (filter_cons P). destruct (decide (P x)); cbn [length]; lia.
Qed.

Lemma pending_for_step e a s s' :
  step a s = Some s' →
  (pending_for e s' ≤ pending_for e s + if arms e a s then 1 else 0)%nat.
Proof.
  intros Hstep. unfold pending_for. rewrite (step_timers _ _ _ Hstep).
  destruct a as [[]| |]; cbn [arms]; try lia.
  - rewrite filter_app, length_app. case_bool_decide as He; cbn [andb].
    + pose proof (length_filter (λ t, tm_event t = e) (armed body uuid s)).
      rewrite armed_length in *. destruct (route _); lia.
    + rewrite (filter_none _ (armed body uuid s)); [cbn [length]; lia|].
      apply Forall_forall. intros t Ht.
      apply armed_event in Ht as [Ht _]. congruence.
  - unfold remove_timer.
    pose proof (length_filter_sub (λ t, tm_event t = e)
                  (λ t, tm_id t ≠ id) (timers s)).
    lia.
Qed.

Lemma pending_for_run e tr s s' :
  run tr s = Some s' →
  (pending_for e s' ≤ pending_for e s + armings e tr s)%nat.
Proof.
  revert s. induction tr as [|a tr IH]; intros s; cbn [run armings].
  - intros [= <-]. lia.
  - destruct (step a s) as [s1|] eqn:E; [|done]. intros Hrun.
    apply IH in Hrun. apply (pending_for_step e) in E. lia.
Qed.

(** C7, as amended: a timer is armed per dispatch, not per event.  Neither
    branch of /login arms one; a dispatch arms exactly one when it takes
    the PUSH or WHATSAPP branch and none on IN_APP or SMS; and the timers
    pending against an event id never outnumber those already pending plus
    the PUSH/WHATSAPP dispatches made under that id -- so at most one for
    an id dispatched once, from a state with none pending. *)
Theorem timers_armed_per_dispatch e :
  (∀ uid did uuid s, timers (snd (login uid did uuid s)) = timers s)
  ∧ (∀ body uuid s,
       timers (snd (send_notification body uuid s))
         = timers s ++ armed body uuid s
       ∧ length (armed body uuid s) =
           match select_spec (snapshot_of (dispatch_ctx body s)) with
           | PUSH | WHATSAPP => 1%nat
           | _ => 0%nat
           end)
  ∧ (∀ tr s s',
       run tr s = Some s' →
       (pending_for e s' ≤ pending_for e s + armings e tr s)%nat).
Proof.
  split; [|split].
  - intros. by rewrite login_unfold.
  - intros. rewrite <- route_select_spec, armed_length.
    by rewrite send_notification_unfold.
  - intros tr s s'. apply pending_for_run.
Qed.

Lemma timers_armed_per_dispatch_witness :
  let tr := [Call (SendNotification (named_body "e1") "uuid-1");
             Call (Login (Some "demo_user") (Some "device_999") "uuid-2");
             Call (SendNotification active_body "uuid-3");
             Advance 20000] in
  ∃ s', run tr init = Some s'
        ∧ armings "e1" tr init = 1%nat
        ∧ (pending_for "e1" s' ≤ pending_for "e1" init + 1)%nat.
Proof.
  intros tr.
  assert (∃ s', run tr init = Some s') as [s' Hrun]
    by (eexists; vm_compute; reflexivity).
  assert (armings "e1" tr init = 1%nat) as Ha by (vm_compute; reflexivity).
  exists s'. split; [exact Hrun|]. split; [exact Ha|].
  rewrite <- Ha.
  exact (proj2 (proj2 (timers_armed_per_dispatch "e1")) tr init s' Hrun).
Defined.

(** C7 as stated fails: dispatching the id "e1" twice on the PUSH branch
    leaves two timers pending against it. *)
Lemma two_timers_for_one_event :
  pending_for "e1" dispatched_twice = 2%nat
  ∧ tm_id <$> timers dispatched_twice = [0%nat; 1%nat].
Proof. split; vm_compute; reflexivity. Qed.

(** ** Escalation when no acknowledgment arrives *)

Lemma step_next_timer a s s' :
  step a s = Some s' → (next_timer s ≤ next_timer s')%nat.
Proof.
  destruct a as [r|dt|id]; cbn [step].
  - intros [= <-]. destruct r; cbn [handle snd]; try reflexivity.
    + by rewrite login_unfold.
    + by rewrite complete_binding_unfold.
    + rewrite send_notification_unfold. store_simpl. lia.
    + by rewrite ack_unfold.
  - case_bool_decide; [|done]. by intros [= <-].
  - destruct (find_timer id (timers s)); [|done].
    case_bool_decide; [|done]. intros [= <-].
    by rewrite timer_callback_unfold.
Qed.

Lemma holds_timer_step own a s s' :
  step a s = Some s' → a ≠ Fire (tm_id own) →
  holds_timer own s → holds_timer own s'.
Proof.
  intros Hstep Hne (Hin & Huniq & Hlt).
  pose proof (step_next_timer _ _ _ Hstep) as Hnext.
  unfold holds_timer. rewrite (step_timers _ _ _ Hstep).
  split; [|split; [|lia]].
  - destruct a as [[]| |id]; try done.
    + apply elem_of_app. by left.
    + unfold remove_timer. apply list_elem_of_filter. split; [|done].
      intros <-. by destruct Hne.
  - intros t. destruct a as [[]| |id]; auto.
    + rewrite elem_of_app. intros [?|Ha] Hid; [by auto|].
      apply armed_event in Ha as (_ & _ & Ha). lia.
    + unfold remove_timer. rewrite list_elem_of_filter. intros [_ ?]. auto.
Qed.

Lemma holds_timer_run own tr s s' :
  run tr s = Some s' → never_fired (tm_id own) tr →
  holds_timer own s → holds_timer own s'.
Proof.
  revert s. induction tr as [|a tr IH]; intros s; cbn [run].
  - by intros [= <-].
  - destruct (step a s) as [s1|] eqn:E; [|done].
    intros Hrun [Ha Htr]%Forall_cons Hinv.
    apply (IH s1); [done..|]. by apply (holds_timer_step own a s).
Qed.

Lemma holds_timer_find own s :
  holds_timer own s → find_timer (tm_id own) (timers s) = Some own.
Proof.
  intros (Hin & Huniq & _). unfold find_timer.
  destruct (filter (λ t, tm_id t = tm_id own) (timers s)) as [|t l] eqn:E.
  - assert (own ∈ filter (λ t, tm_id t = tm_id own) (timers s)) as H
      by by apply list_elem_of_filter.
    rewrite E in H. by apply elem_of_nil in H.
  - assert (t ∈ filter (λ t, tm_id t = tm_id own) (timers s)) as H
      by (rewrite E; apply list_elem_of_here).
    apply list_elem_of_filter in H as [Hid Ht].
    cbn [head]. f_equal. by apply Huniq.
Qed.








(** Handles stay fresh along every run. *)
Lemma timers_fresh_step a s s' :
  step a s = Some s' → timers_fresh s → timers_fresh s'.
Proof.
  intros Hstep Hf. pose proof (step_next_timer _ _ _ Hstep) as Hn.
  unfold timers_fresh in *. rewrite (step_timers _ _ _ Hstep).
  assert (Forall (λ t, (tm_id t < next_timer s')%nat) (timers s)) as Hold.
  { eapply Forall_impl; [done|]. intros t ?. cbn beta in *. lia. }
  destruct a as [[]| |id]; try done.
  - apply Forall_app. split; [done|]. apply Forall_forall. intros t Ht.
    pose proof (armed_event _ _ _ _ Ht) as (_ & _ & Hid).
    cbn [step handle] in Hstep. injection Hstep as <-.
    rewrite send_notification_unfold. store_simpl.
    destruct (armed body uuid s); [by apply elem_of_nil in Ht|].
    cbn [length]. lia.
  - unfold remove_timer. apply Forall_forall. intros t [_ Ht]%list_elem_of_filter.
    rewrite Forall_forall in Hold. by apply Hold.
Qed.

Lemma timers_fresh_run tr s s' :
  run tr s = Some s' → timers_fresh s → timers_fresh s'.
Proof.
  revert s. induction tr as [|a tr IH]; intros s; cbn [run].
  - by intros [= <-].
  - destruct (step a s) as [s1|] eqn:E; [|done]. intros Hrun Hf.
    apply (IH s1); [done|]. by apply (timers_fresh_step a s).
Qed.

Lemma timers_fresh_reachable tr s : run tr init = Some s → timers_fresh s.
Proof. intros H. apply (timers_fresh_run _ _ _ H). constructor. Qed.

(** ** Dispatching an event id again *)

(** Only a creation touches [sent_ts] and [chosen_channel]. *)
Lemma step_keeps_sent a s s' e r :
  step a s = Some s' → created_id a ≠ Some e →
  TELEMETRY s !! e = Some r →
  ∃ r', TELEMETRY s' !! e = Some r' ∧ sent_ts r' = sent_ts r
        ∧ chosen_channel r' = chosen_channel r.
Proof.
  intros Hstep Hc Hr. destruct a as [rq|dt|id]; cbn [step] in Hstep.
  - injection Hstep as <-.
    destruct rq; cbn [handle snd created_id] in *; eauto.
    + rewrite login_unfold; store_simpl.
      rewrite lookup_insert_ne by congruence. eauto.
    + rewrite complete_binding_unfold; store_simpl.
      destruct (str_truthy eid); [|eauto].
      rewrite lookup_alter. case_decide as Heq; [subst e|]; rewrite Hr;
        cbn [fmap option_fmap option_map]; eauto.
    + rewrite send_notification_unfold; store_simpl.
      rewrite lookup_insert_ne by congruence. eauto.
    + rewrite ack_unfold; store_simpl.
      rewrite lookup_alter. case_decide as Heq; [subst e|]; rewrite Hr;
        cbn [fmap option_fmap option_map]; eauto.
  - case_bool_decide; [|done]. injection Hstep as <-. store_simpl. eauto.
  - destruct (find_timer id (timers s)) as [t|] eqn:Ft; [|done].
    case_bool_decide as Hdue; [|done]. injection Hstep as <-.
    rewrite timer_callback_unfold; store_simpl.
    rewrite lookup_alter. case_decide as Heq; [|eauto].
    rewrite <- Heq in Hr. rewrite Hr. cbn [fmap option_fmap option_map].
    unfold fallback_update. case_bool_decide; eauto.
Qed.

Lemma sent_as_run e t ch tr s s' :
  run tr s = Some s' → never_created e tr →
  sent_as e t ch s → sent_as e t ch s'.
Proof.
  revert s. induction tr as [|a tr IH]; intros s; cbn [run].
  - by intros [= <-].
  - destruct (step a s) as [s1|] eqn:E; [|done].
    intros Hrun [Ha Htr]%Forall_cons (r & Hr & Hs & Hch).
    apply (IH s1); [done..|].
    destruct (step_keeps_sent _ _ _ _ _ E Ha Hr) as (r' & ? & ? & ?).
    exists r'. split; [done|]. split; congruence.
Qed.

(** C10: dispatching under an event id that is already in the store
    replaces its record by a freshly initialised one -- only the new route
    log, [ack_ts] null, no fallback -- whatever the old record held.  A
    timer armed by the earlier dispatch stays pending, and when it fires it
    acts on the replacement: it returns if that record has been
    acknowledged, and otherwise writes [fallback_triggered] and its own
    fallback channel into it. *)
Theorem redispatch_replaces_record s body uuid r_old old :
  let e := dispatch_id body uuid in
  let ch := route (dispatch_ctx body s) in
  let s1 := snd (send_notification body uuid s) in
  TELEMETRY s !! e = Some r_old →
  holds_timer old s → tm_event old = e →
  (∃ r1, TELEMETRY s1 !! e = Some r1
     ∧ logs r1 = [{| ts := clock s; msg := route_msg ch |}]
     ∧ ack_ts r1 = None ∧ fallback_triggered r1 = false
     ∧ fallback_channel r1 = None
     ∧ sent_ts r1 = Some (clock s) ∧ chosen_channel r1 = Some ch)
  ∧ holds_timer old s1
  ∧ ∀ tr s2,
      run tr s1 = Some s2 →
      never_created e tr → never_fired (tm_id old) tr →
      tm_due old ≤ clock s2 →
      ∃ s3 r2,
        step (Fire (tm_id old)) s2 = Some s3
        ∧ TELEMETRY s2 !! e = Some r2
        ∧ sent_ts r2 = Some (clock s) ∧ chosen_channel r2 = Some ch
        ∧ (is_Some (ack_ts r2) → TELEMETRY s3 !! e = Some r2)
        ∧ (ack_ts r2 = None →
           ∃ r3, TELEMETRY s3 !! e = Some r3
             ∧ fallback_triggered r3 = true
             ∧ fallback_channel r3 = Some (fallback_of (tm_body old))
             ∧ sent_ts r3 = Some (clock s)).
Proof.
  intros e ch s1 Hold Hh Hev.
  assert (holds_timer old s1) as Hh1.
  { apply (holds_timer_step old (Call (SendNotification body uuid)) s);
      [done|done|done]. }
  split; [|split; [done|]].
  - eexists. split; [apply send_notification_lookup|]. done.
  - intros tr s2 Hrun Hnc Hnf Hdue.
    apply (holds_timer_run _ _ _ _ Hrun Hnf) in Hh1.
    pose proof (holds_timer_find _ _ Hh1) as Hfind.
    assert (sent_as e (clock s) ch s1) as Hs.
    { eexists. split; [apply send_notification_lookup|]. done. }
    apply (sent_as_run _ _ _ _ _ _ Hrun Hnc) in Hs.
    destruct Hs as (r2 & Hr2 & Hsent & Hch).
    cbn [step]. rewrite Hfind. rewrite bool_decide_eq_true_2 by done.
    eexists _, r2. split; [done|]. split; [done|]. do 2 (split; [done|]).
    rewrite timer_callback_unfold. store_simpl.
    unfold tm_event in Hev. rewrite Hev, lookup_alter_eq, Hr2.
    cbn [fmap option_fmap option_map]. unfold fallback_update. split.
    + intros Hack. by rewrite bool_decide_eq_true_2.
    + intros Hack. rewrite bool_decide_eq_false_2
        by (rewrite Hack; by intros [? ?]).
      eexists. split; [done|]. done.
Qed.

Lemma redispatch_replaces_record_witness :
  let old := {| tm_id := 0; tm_due := 20000;
                tm_body := PushFallback "e1" demo_context |} in
  let s1 := snd (send_notification (named_body "e1") "uuid-2" stale_state) in
  is_Some (TELEMETRY stale_state !! "e1")
  ∧ holds_timer old stale_state
  ∧ never_created "e1" [Advance 5000] ∧ never_fired 0 [Advance 5000]
  ∧ ∃ s2 s3 r3,
      run [Advance 5000] s1 = Some s2
      ∧ step (Fire 0%nat) s2 = Some s3
      ∧ TELEMETRY s3 !! "e1" = Some r3
      ∧ fallback_triggered r3 = true
      ∧ fallback_channel r3 = Some WHATSAPP
      ∧ sent_ts r3 = Some 15000.
Proof.
  intros old s1.
  assert (∃ r, TELEMETRY stale_state !! "e1" = Some r) as [r_old Hold]
    by (vm_compute; eauto).
  assert (holds_timer old stale_state) as Hh.
  { split; [|split].
    - vm_compute. apply list_elem_of_here.
    - intros t Ht. vm_compute in Ht. apply list_elem_of_singleton in Ht.
      by intros _.
    - vm_compute. lia. }
  assert (never_created "e1" [Advance 5000]) as H1
    by (repeat constructor; done).
  assert (never_fired 0 [Advance 5000]) as H2 by (repeat constructor; done).
  split; [by exists r_old|]. do 3 (split; [done|]).
  destruct (redispatch_replaces_record stale_state (named_body "e1") "uuid-2"
              r_old old Hold Hh eq_refl) as (_ & _ & Hfire).
  assert (∃ s2, run [Advance 5000] s1 = Some s2 ∧ tm_due old ≤ clock s2
                ∧ (TELEMETRY s2 !! "e1" ≫= ack_ts) = None)
    as (s2 & Hrun & Hdue & Hack).
  { eexists. split; [vm_compute; reflexivity|].
    split; [vm_compute; discriminate|vm_compute; reflexivity]. }
  destruct (Hfire [Advance 5000] s2 Hrun H1 H2 Hdue)
    as (s3 & r2 & Hstep & Hr2 & _ & _ & _ & Hfb).
  change (TELEMETRY s2 !! "e1" = Some r2) in Hr2.
  rewrite Hr2 in Hack. cbn [mbind option_bind] in Hack.
  destruct (Hfb Hack) as (r3 & Hr3 & Hf & Hc & Hs).
  exists s2, s3, r3. do 4 (split; [done|]). split; [|done].
  rewrite Hc. vm_compute. reflexivity.
Defined.

(** ** The shape of a step *)

Lemma evolves_refl t r : evolves t r r.
Proof.
  unfold evolves. do 5 (split; [done|]).
  split; [exists []; by rewrite app_nil_r|]. split; [by left|by left].
Qed.

Lemma evolves_ack t channel r : evolves t r (ack_update t channel r).
Proof.
  unfold evolves, ack_update. cbn. do 5 (split; [done|]).
  split; [eexists; split; [done|]; by repeat constructor|].
  split; [by right|by left].
Qed.

Lemma evolves_binding t oldID did r : evolves t r (binding_update t oldID did r).
Proof.
  unfold evolves, binding_update. cbn. do 5 (split; [done|]).
  split.
  { exists [{| ts := t; msg := "📩 Encrypted SMS received at Bank Server." |};
            {| ts := t;
               msg := "♻️ Registry Updated: Replaced " +:+ oldID +:+ " with "
                        +:+ to_key did +:+ "." |}].
    split; [by rewrite <- app_assoc|by repeat constructor]. }
  split; [by right|by left].
Qed.

Lemma evolves_fallback t cb r : evolves t r (fallback_update t (fallback_of cb) r).
Proof.
  unfold fallback_update. case_bool_decide as Hack; [apply evolves_refl|].
  assert (ack_ts r = None) as Hnone.
  { destruct (ack_ts r); [|done]. by destruct Hack. }
  unfold evolves. cbn. do 5 (split; [done|]).
  split; [eexists; split; [done|]; by repeat constructor|].
  split; [by left|]. right. do 3 (split; [done|]).
  destruct cb as [? ctx|?]; cbn [fallback_of]; [|by right].
  destruct (truthy _); [by left|by right].
Qed.

Lemma created_dispatch body uuid t ch :
  ch ≠ ANALYZING →
  created t (dispatch_id body uuid) (dispatched_record body uuid t ch).
Proof.
  intros Hch. unfold created, dispatched_record. cbn.
  do 5 (split; [done|]). split; [by exists ch|].
  split; [done|by repeat constructor].
Qed.

Lemma created_login uid did uuid t known :
  created t uuid (login_record uid did uuid t known).
Proof.
  unfold created, login_record. cbn. do 5 (split; [done|]).
  split; [eexists; split; [done|]; by destruct known|].
  split; [done|]. destruct known; by repeat constructor.
Qed.

Lemma route_not_analyzing ctx : route ctx ≠ ANALYZING.
Proof.
  unfold route.
  by destruct (truthy (ctx !! "has_app")), (truthy (ctx !! "is_active")),
    (truthy (ctx !! "device_online")), (truthy (ctx !! "whatsapp_opt_in")).
Qed.

(** Every step either creates one record, noting it in both indexes, or
    leaves the indexes alone and lets one record evolve. *)
Lemma step_shape a s s' :
  step a s = Some s' →
  (∃ k u r, created_id a = Some k ∧ created (clock s) k r
     ∧ TELEMETRY s' = <[k := r]> (TELEMETRY s)
     ∧ EVENT_ORDER s' = (if decide (k ∈ EVENT_ORDER s) then EVENT_ORDER s
                         else k :: EVENT_ORDER s)
     ∧ USER_EVENTS s' =
         <[u := default [] (USER_EVENTS s !! u) ++ [k]]> (USER_EVENTS s))
  ∨ (created_id a = None ∧ EVENT_ORDER s' = EVENT_ORDER s
     ∧ USER_EVENTS s' = USER_EVENTS s
     ∧ ∃ k f, TELEMETRY s' = alter f k (TELEMETRY s)
              ∧ ∀ r, evolves (clock s) r (f r)).
Proof.
  assert (∀ s0 : State, ∃ (k : string) (f : Telemetry → Telemetry),
            TELEMETRY s0 = alter f k (TELEMETRY s0)
            ∧ ∀ r, evolves (clock s0) r (f r)) as Hquiet.
  { intros s0. exists "", (λ r, r). split; [|intros; apply evolves_refl].
    by rewrite alter_id. }
  destruct a as [rq|dt|id]; cbn [step].
  - intros [= <-]. destruct rq; cbn [handle snd created_id].
    + right. do 3 (split; [done|]). apply Hquiet.
    + right. unfold update_context. store_simpl.
      do 3 (split; [done|]). apply Hquiet.
    + left. rewrite login_unfold. store_simpl.
      eexists uuid, _, _. split; [done|].
      split; [apply created_login|]. done.
    + right. rewrite complete_binding_unfold. store_simpl.
      do 3 (split; [done|]). destruct (str_truthy eid).
      * eexists _, _. split; [done|]. intros. apply evolves_binding.
      * apply Hquiet.
    + left. rewrite send_notification_unfold. store_simpl.
      eexists _, _, _. split; [done|].
      split; [apply created_dispatch, route_not_analyzing|]. done.
    + right. rewrite ack_unfold. store_simpl.
      do 3 (split; [done|]). eexists _, _. split; [done|].
      intros. apply evolves_ack.
    + right. do 3 (split; [done|]). apply Hquiet.
    + right. do 3 (split; [done|]). apply Hquiet.
  - case_bool_decide; [|done]. intros [= <-]. right. store_simpl.
    do 3 (split; [done|]). apply Hquiet.
  - destruct (find_timer id (timers s)) as [t|]; [|done].
    case_bool_decide; [|done]. intros [= <-]. right.
    rewrite timer_callback_unfold. store_simpl.
    do 3 (split; [done|]). eexists _, _. split; [done|].
    intros. apply evolves_fallback.
Qed.

(** The same, seen from one key. *)
Lemma step_lookup a s s' e :
  step a s = Some s' →
  (created_id a = Some e
   ∧ ∃ r, TELEMETRY s' !! e = Some r ∧ created (clock s) e r)
  ∨ (created_id a ≠ Some e
     ∧ option_Forall2 (evolves (clock s))
         (TELEMETRY s !! e) (TELEMETRY s' !! e)).
Proof.
  intros Hstep.
  assert (∀ o : option Telemetry,
            option_Forall2 (evolves (clock s)) o o) as Hrefl.
  { intros [r|]; constructor. apply evolves_refl. }
  destruct (step_shape _ _ _ Hstep)
    as [(k & u & r & Hc & Hcr & HT & _)|(Hc & _ & _ & k & f & HT & Hf)];
    rewrite HT, Hc.
  - destruct (decide (k = e)) as [->|Hne].
    + left. split; [done|]. exists r. by rewrite lookup_insert_eq.
    + right. split; [congruence|]. by rewrite lookup_insert_ne.
  - right. split; [done|]. rewrite lookup_alter. case_decide; [subst k|done].
    destruct (TELEMETRY s !! e); constructor. apply Hf.
Qed.

(** ** What every stored record satisfies *)

Lemma chronological_const t l :
  Forall (λ e, ts e = t) l → chronological l.
Proof.
  unfold chronological.
  induction 1 as [|e l He Hl IH]; [constructor|].
  constructor; [done|]. rewrite He.
  eapply Forall_impl; [done|]. intros e' ->. cbn beta. lia.
Qed.

Lemma record_ok_created t0 c c' k r :
  created c k r → t0 ≤ c → c ≤ c' → record_ok t0 c' k r.
Proof.
  intros (Hid & Hs & Ha & Hf & Hfc & Hch & Hl & Hts) H0 Hc.
  split; [done|]. split; [done|]. split; [done|]. split.
  { exists c. split; [done|]. split; [lia|]. split; [by rewrite Ha|].
    eapply Forall_impl; [done|]. intros e ->. cbn beta. lia. }
  split; [|by left]. by apply (chronological_const c).
Qed.

Lemma record_ok_evolves t0 c c' k r r' :
  record_ok t0 c k r → evolves c r r' → c ≤ c' → record_ok t0 c' k r'.
Proof.
  intros (Hid & Hch & Hl & (t & Hs & Ht & Ha & Hts) & Hchr & Hfb)
    (Eid & _ & _ & Ech & Es & (l & El & Hlt) & Ea & Ef) Hc.
  split; [congruence|]. split; [by rewrite Ech|].
  split; [rewrite El; by destruct (logs r)|]. split.
  { exists t. split; [congruence|]. split; [lia|]. split.
    - intros ta Hta. destruct Ea as [Ea|Ea]; rewrite Ea in Hta.
      + specialize (Ha ta Hta). lia.
      + injection Hta as <-. lia.
    - rewrite El. apply Forall_app. split.
      + eapply Forall_impl; [done|]. intros e ?. cbn beta in *. lia.
      + eapply Forall_impl; [done|]. intros e ->. cbn beta. lia. }
  split.
  - unfold chronological. rewrite El. apply StronglySorted_app_2.
    + intros x1 x2 H1 H2. rewrite Forall_forall in Hts, Hlt.
      specialize (Hts x1 H1). rewrite (Hlt x2 H2). lia.
    + done.
    + by apply (chronological_const c).
  - destruct Ef as [[-> ->]|(_ & _ & -> & Hx)]; [done|]. by right.
Qed.

Lemma records_ok_step t0 a s s' :
  step a s = Some s' → records_ok t0 s → records_ok t0 s'.
Proof.
  intros Hstep [H0 Hrec]. pose proof (step_clock _ _ _ Hstep) as Hclk.
  split; [lia|]. intros k r' Hr'.
  destruct (step_lookup _ _ _ k Hstep) as [(_ & r & Hr & Hcr)|(_ & Hev)].
  - assert (r = r') as -> by congruence.
    by apply (record_ok_created t0 (clock s)).
  - rewrite Hr' in Hev. inversion Hev as [r ? Hevo Hr|]; subst.
    apply (record_ok_evolves t0 (clock s) _ k r); [by apply Hrec|done..].
Qed.

Lemma records_ok_run t0 tr s s' :
  run tr s = Some s' → records_ok t0 s → records_ok t0 s'.
Proof.
  revert s. induction tr as [|a tr IH]; intros s; cbn [run].
  - by intros [= <-].
  - destruct (step a s) as [s1|] eqn:E; [|done]. intros Hrun Hinv.
    apply (IH s1); [done|]. by apply (records_ok_step t0 a s).
Qed.

Lemma records_ok_reachable s :
  reachable s → ∃ t0, records_ok t0 s.
Proof.
  intros (t0 & tr & Hrun). exists t0.
  apply (records_ok_run t0 tr (init_at t0)); [done|].
  split; [done|]. intros k r Hr. cbn in Hr. by rewrite lookup_empty in Hr.
Qed.

Lemma busy_state_reachable : reachable busy_state.
Proof. exists 0, busy_trace. vm_compute. reflexivity. Qed.

Lemma busy_state_e1 :
  ∃ r, TELEMETRY busy_state !! "e1" = Some r
       ∧ sent_ts r = Some 0 ∧ ack_ts r = None
       ∧ fallback_triggered r = true ∧ length (logs r) = 2%nat.
Proof.
  assert (is_Some (TELEMETRY busy_state !! "e1")) as [r Hr]
    by (vm_compute; eauto).
  assert ((TELEMETRY busy_state !! "e1" ≫= sent_ts) = Some 0
          ∧ (TELEMETRY busy_state !! "e1" ≫= ack_ts) = None
          ∧ (fallback_triggered <$> TELEMETRY busy_state !! "e1") = Some true
          ∧ (length <$> (logs <$> TELEMETRY busy_state !! "e1")) = Some 2%nat)
    as H by (repeat split; vm_compute; reflexivity).
  rewrite Hr in H. cbn [mbind option_bind fmap option_fmap option_map] in H.
  destruct H as (H1 & H2 & [= H3] & [= H4]).
  exact (ex_intro _ r (conj Hr (conj H1 (conj H2 (conj H3 H4))))).
Qed.

Lemma busy_state_login :
  ∃ r, TELEMETRY busy_state !! "uuid-2" = Some r
       ∧ sent_ts r = Some 1000 ∧ ack_ts r = Some 1500.
Proof.
  assert (is_Some (TELEMETRY busy_state !! "uuid-2")) as [r Hr]
    by (vm_compute; eauto).
  assert ((TELEMETRY busy_state !! "uuid-2" ≫= sent_ts) = Some 1000
          ∧ (TELEMETRY busy_state !! "uuid-2" ≫= ack_ts) = Some 1500)
    as H by (repeat split; vm_compute; reflexivity).
  rewrite Hr in H. cbn [mbind option_bind] in H.
  destruct H as (H1 & H2).
  exact (ex_intro _ r (conj Hr (conj H1 H2))).
Qed.

Lemma stored_record_key_aux s k r :
  reachable s → TELEMETRY s !! k = Some r → event_id r = k.
Proof.
  intros [t0 [_ Hrec]]%records_ok_reachable Hr. by destruct (Hrec k r Hr).
Qed.

(** X1: in every reachable state a record sits under its own id:
    [TELEMETRY[k].event_id] is [k]. *)
Theorem stored_record_key s k r :
  reachable s → TELEMETRY s !! k = Some r → event_id r = k.
Proof.
  intros [t0 [_ Hrec]]%records_ok_reachable Hr. by destruct (Hrec k r Hr).
Qed.

Lemma stored_record_key_witness :
  ∃ r, reachable busy_state ∧ TELEMETRY busy_state !! "e1" = Some r
       ∧ event_id r = "e1".
Proof.
  destruct busy_state_e1 as (r & Hr & _). exists r.
  split; [exact busy_state_reachable|]. split; [exact Hr|].
  exact (stored_record_key busy_state "e1" r busy_state_reachable Hr).
Defined.



(** X3: the timestamps of a record are in order: an acknowledgment is
    stamped no earlier than the dispatch and no later than the clock. *)
Theorem ack_not_before_sent s k r t ta :
  reachable s → TELEMETRY s !! k = Some r →
  sent_ts r = Some t → ack_ts r = Some ta → t ≤ ta ≤ clock s.
Proof.
  intros [t0 [_ Hrec]]%records_ok_reachable Hr Ht Hta.
  destruct (Hrec k r Hr) as (_ & _ & _ & (t' & Ht' & _ & Ha & _) & _).
  assert (t' = t) as -> by congruence. by apply Ha.
Qed.

Lemma ack_not_before_sent_witness :
  ∃ r, reachable busy_state ∧ TELEMETRY busy_state !! "uuid-2" = Some r
       ∧ sent_ts r = Some 1000 ∧ ack_ts r = Some 1500
       ∧ 1000 ≤ 1500 ≤ clock busy_state.
Proof.
  destruct busy_state_login as (r & Hr & Hs & Ha). exists r.
  split; [exact busy_state_reachable|].
  split; [exact Hr|]. split; [exact Hs|]. split; [exact Ha|].
  exact (ack_not_before_sent busy_state "uuid-2" r 1000 1500
           busy_state_reachable Hr Hs Ha).
Defined.

(** X4: the log of a record is in time order, and every entry is stamped
    between the record's [sent_ts] and the clock. *)
Theorem logs_chronological s k r t :
  reachable s → TELEMETRY s !! k = Some r → sent_ts r = Some t →
  chronological (logs r) ∧ Forall (λ e, t ≤ ts e ≤ clock s) (logs r).
Proof.
  intros [t0 [_ Hrec]]%records_ok_reachable Hr Ht.
  destruct (Hrec k r Hr) as (_ & _ & _ & (t' & Ht' & _ & _ & Hl) & Hc & _).
  assert (t' = t) as -> by congruence. done.
Qed.

Lemma logs_chronological_witness :
  ∃ r, reachable busy_state ∧ TELEMETRY busy_state !! "e1" = Some r
       ∧ sent_ts r = Some 0 ∧ length (logs r) = 2%nat
       ∧ chronological (logs r)
       ∧ Forall (λ e, 0 ≤ ts e ≤ clock busy_state) (logs r).
Proof.
  destruct busy_state_e1 as (r & Hr & Hs & _ & _ & Hl). exists r.
  split; [exact busy_state_reachable|].
  split; [exact Hr|]. split; [exact Hs|]. split; [exact Hl|].
  exact (logs_chronological busy_state "e1" r 0 busy_state_reachable Hr Hs).
Defined.

(** X5: the two fallback fields agree: [fallback_triggered] is true exactly
    when [fallback_channel] is set, and the channel is then WHATSAPP or
    SMS. *)
Theorem fallback_fields_agree s k r :
  reachable s → TELEMETRY s !! k = Some r →
  (fallback_triggered r = false ∧ fallback_channel r = None)
  ∨ (fallback_triggered r = true
     ∧ (fallback_channel r = Some WHATSAPP ∨ fallback_channel r = Some SMS)).
Proof.
  intros [t0 [_ Hrec]]%records_ok_reachable Hr.
  by destruct (Hrec k r Hr) as (_ & _ & _ & _ & _ & Hf).
Qed.

Lemma fallback_fields_agree_witness :
  ∃ r, reachable busy_state ∧ TELEMETRY busy_state !! "e1" = Some r
       ∧ fallback_triggered r = true
       ∧ ((fallback_triggered r = false ∧ fallback_channel r = None)
          ∨ (fallback_triggered r = true
             ∧ (fallback_channel r = Some WHATSAPP
                ∨ fallback_channel r = Some SMS))).
Proof.
  destruct busy_state_e1 as (r & Hr & _ & _ & Hf & _). exists r.
  split; [exact busy_state_reachable|].
  split; [exact Hr|]. split; [exact Hf|].
  exact (fallback_fields_agree busy_state "e1" r busy_state_reachable Hr).
Defined.

(** ** A record over a run *)

Lemma grown_refl r : grown r r.
Proof. unfold grown. by repeat split. Qed.

Lemma grown_trans r1 r2 r3 : grown r1 r2 → grown r2 r3 → grown r1 r3.
Proof.
  intros (A1 & A2 & A3 & A4 & A5 & A6 & A7 & A8)
         (B1 & B2 & B3 & B4 & B5 & B6 & B7 & B8).
  unfold grown. repeat split; try congruence; [by etrans|auto..].
Qed.

Lemma evolves_grown t r r' : evolves t r r' → grown r r'.
Proof.
  intros (E1 & E2 & E3 & E4 & E5 & (l & El & _) & Ea & Ef).
  unfold grown. do 5 (split; [done|]).
  split; [rewrite El; by apply prefix_app_r|]. split.
  - destruct Ef as [[-> _]|(_ & _ & -> & _)]; done.
  - destruct Ea as [->| ->]; [done|by eauto].
Qed.

Lemma grown_run e tr s s' r :
  run tr s = Some s' → never_created e tr → TELEMETRY s !! e = Some r →
  ∃ r', TELEMETRY s' !! e = Some r' ∧ grown r r'.
Proof.
  revert s r. induction tr as [|a tr IH]; intros s r; cbn [run].
  - intros [= <-] _ Hr. exists r. split; [done|apply grown_refl].
  - destruct (step a s) as [s1|] eqn:E; [|done].
    intros Hrun [Ha Htr]%Forall_cons Hr.
    destruct (step_lookup _ _ _ e E) as [[Hc _]|[_ Hev]]; [done|].
    rewrite Hr in Hev.
    destruct (TELEMETRY s1 !! e) as [r1|] eqn:Hr1; [|by inversion Hev].
    assert (evolves (clock s) r r1) as Hevo by by inversion Hev.
    destruct (IH s1 r1 Hrun Htr Hr1) as (r' & Hr' & Hg).
    exists r'. split; [done|].
    eapply grown_trans; [by eapply evolves_grown|done].
Qed.

Lemma busy_rest_run :
  run busy_rest busy_start = Some busy_state
  ∧ never_created "e1" busy_rest.
Proof.
  split; [vm_compute; reflexivity|].
  unfold busy_rest, busy_trace. cbn [tail]. repeat constructor; done.
Qed.

Lemma busy_start_e1 :
  TELEMETRY busy_start !! "e1"
  = Some (dispatched_record (named_body "e1") "uuid-1" 0 PUSH).
Proof. vm_compute. reflexivity. Qed.

(** X6: once a record is created, acknowledgment, binding and escalation
    never overwrite its identity or routing: [event_id], [user_id],
    [event_type], [chosen_channel] and [sent_ts] stay as created for as
    long as the event id is not dispatched again. *)
Theorem routing_fields_fixed e tr s s' r :
  run tr s = Some s' → never_created e tr → TELEMETRY s !! e = Some r →
  ∃ r', TELEMETRY s' !! e = Some r'
    ∧ event_id r' = event_id r ∧ user_id r' = user_id r
    ∧ event_type r' = event_type r
    ∧ chosen_channel r' = chosen_channel r ∧ sent_ts r' = sent_ts r.
Proof.
  intros Hrun Hc Hr.
  destruct (grown_run _ _ _ _ _ Hrun Hc Hr)
    as (r' & Hr' & G1 & G2 & G3 & G4 & G5 & _).
  exists r'. by repeat split.
Qed.

Lemma routing_fields_fixed_witness :
  run busy_rest busy_start = Some busy_state
  ∧ never_created "e1" busy_rest
  ∧ ∃ r', TELEMETRY busy_state !! "e1" = Some r'
      ∧ fallback_triggered r' = true
      ∧ chosen_channel r' = Some PUSH ∧ sent_ts r' = Some 0.
Proof.
  destruct busy_rest_run as [Hrun Hc].
  split; [exact Hrun|]. split; [exact Hc|].
  destruct (routing_fields_fixed "e1" busy_rest busy_start busy_state _
              Hrun Hc busy_start_e1) as (r' & Hr' & _ & _ & _ & H4 & H5).
  destruct busy_state_e1 as (r & Hr & _ & _ & Hf & _).
  assert (r = r') as -> by (rewrite Hr in Hr'; by injection Hr').
  exists r'. split; [exact Hr'|]. split; [exact Hf|].
  split; [exact H4|exact H5].
Defined.

(** X7: the log of a record is append-only: whatever is logged stays, in
    place, at the front of every later log of that record. *)
Theorem logs_append_only e tr s s' r :
  run tr s = Some s' → never_created e tr → TELEMETRY s !! e = Some r →
  ∃ r', TELEMETRY s' !! e = Some r' ∧ logs r `prefix_of` logs r'.
Proof.
  intros Hrun Hc Hr.
  destruct (grown_run _ _ _ _ _ Hrun Hc Hr) as (r' & Hr' & G).
  exists r'. split; [done|]. apply G.
Qed.

Lemma logs_append_only_witness :
  run busy_rest busy_start = Some busy_state
  ∧ never_created "e1" busy_rest
  ∧ ∃ r', TELEMETRY busy_state !! "e1" = Some r'
      ∧ length (logs r') = 2%nat
      ∧ [{| ts := 0; msg := "Route: PUSH (Background notification)" |}]
          `prefix_of` logs r'.
Proof.
  destruct busy_rest_run as [Hrun Hc].
  split; [exact Hrun|]. split; [exact Hc|].
  destruct (logs_append_only "e1" busy_rest busy_start busy_state _
              Hrun Hc busy_start_e1) as (r' & Hr' & Hp).
  destruct busy_state_e1 as (r & Hr & _ & _ & _ & Hl).
  assert (r = r') as -> by (rewrite Hr in Hr'; by injection Hr').
  exists r'. split; [exact Hr'|]. split; [exact Hl|exact Hp].
Defined.

(** X8: escalation is permanent: once [fallback_triggered] is true, no
    later acknowledgment, binding or timer sets it back. *)
Theorem fallback_permanent e tr s s' r :
  run tr s = Some s' → never_created e tr → TELEMETRY s !! e = Some r →
  fallback_triggered r = true →
  ∃ r', TELEMETRY s' !! e = Some r' ∧ fallback_triggered r' = true.
Proof.
  intros Hrun Hc Hr Hf.
  destruct (grown_run _ _ _ _ _ Hrun Hc Hr) as (r' & Hr' & G).
  exists r'. split; [done|]. by apply G.
Qed.

Lemma fallback_permanent_witness :
  never_created "e1" late_ack
  ∧ ∃ s' r r',
      run late_ack busy_state = Some s'
      ∧ TELEMETRY busy_state !! "e1" = Some r
      ∧ fallback_triggered r = true
      ∧ TELEMETRY s' !! "e1" = Some r'
      ∧ fallback_triggered r' = true.
Proof.
  assert (never_created "e1" late_ack) as Hc by (repeat constructor; done).
  split; [exact Hc|].
  assert (∃ s', run late_ack busy_state = Some s') as [s' Hrun]
    by (eexists; vm_compute; reflexivity).
  destruct busy_state_e1 as (r & Hr & _ & _ & Hf & _).
  destruct (fallback_permanent "e1" late_ack busy_state s' r Hrun Hc Hr Hf)
    as (r' & Hr' & Hf').
  exists s', r, r'.
  exact (conj Hrun (conj Hr (conj Hf (conj Hr' Hf')))).
Defined.

(** X9: no operation deletes a record: an event id that is in the store
    stays in it over every run. *)
Theorem records_never_deleted e tr s s' :
  run tr s = Some s' → is_Some (TELEMETRY s !! e) →
  is_Some (TELEMETRY s' !! e).
Proof.
  revert s. induction tr as [|a tr IH]; intros s; cbn [run].
  - by intros [= <-].
  - destruct (step a s) as [s1|] eqn:E; [|done]. intros Hrun [r Hr].
    apply (IH s1 Hrun).
    destruct (step_lookup _ _ _ e E) as [(_ & r1 & -> & _)|[_ Hev]];
      [by eexists|].
    rewrite Hr in Hev. inversion Hev. by eexists.
Qed.

Lemma records_never_deleted_witness :
  run busy_rest busy_start = Some busy_state
  ∧ is_Some (TELEMETRY busy_start !! "e1")
  ∧ is_Some (TELEMETRY busy_state !! "e1").
Proof.
  destruct busy_rest_run as [Hrun _].
  assert (is_Some (TELEMETRY busy_start !! "e1")) as H
    by (eexists; exact busy_start_e1).
  split; [exact Hrun|]. split; [exact H|].
  exact (records_never_deleted "e1" busy_rest busy_start busy_state Hrun H).
Defined.

(** ** The two indexes *)

Lemma indexes_ok_step a s s' :
  step a s = Some s' → indexes_ok s → indexes_ok s'.
Proof.
  intros Hstep (Hnd & Hord & Hue).
  destruct (step_shape _ _ _ Hstep)
    as [(k & u & r & _ & _ & HT & HO & HU)|(_ & HO & HU & k & f & HT & _)];
    unfold indexes_ok; rewrite HT, HO, HU.
  - split; [|split].
    + destruct (decide (k ∈ EVENT_ORDER s)); [done|by constructor].
    + intros k'. rewrite lookup_insert_is_Some.
      destruct (decide (k ∈ EVENT_ORDER s)) as [Hin|Hin].
      * rewrite Hord. split.
        -- intros ?. destruct (decide (k = k')); auto.
        -- intros [<-|[_ ?]]; [by apply Hord|done].
      * rewrite elem_of_cons, Hord. split.
        -- intros [->|?]; [by left|]. destruct (decide (k = k')); auto.
        -- intros [->|[_ ?]]; auto.
    + intros u' l k' Hl Hk. rewrite lookup_insert_is_Some.
      destruct (decide (k = k')) as [|Hne]; [by left|right].
      split; [done|].
      destruct (decide (u = u')) as [->|Hu].
      * rewrite lookup_insert_eq in Hl. injection Hl as <-.
        apply elem_of_app in Hk as [Hk|Hk].
        -- destruct (USER_EVENTS s !! u') as [l0|] eqn:E;
             [by eapply Hue|by apply elem_of_nil in Hk].
        -- apply list_elem_of_singleton in Hk. congruence.
      * rewrite lookup_insert_ne in Hl by done. by eapply Hue.
  - split; [done|]. split.
    + intros k'. by rewrite lookup_alter_is_Some.
    + intros u l k' Hl Hk. rewrite lookup_alter_is_Some. by eapply Hue.
Qed.

Lemma indexes_ok_reachable s : reachable s → indexes_ok s.
Proof.
  intros (t0 & tr & Hrun).
  assert (indexes_ok (init_at t0)) as Hinit.
  { split; [constructor|]. split.
    - intros k. cbn. rewrite lookup_empty, elem_of_nil.
      split; [done|]. by intros [? ?].
    - intros u l k Hl. cbn in Hl. by rewrite lookup_empty in Hl. }
  revert Hrun Hinit. generalize (init_at t0). clear t0.
  induction tr as [|a tr IH]; intros s0; cbn [run].
  - by intros [= <-].
  - destruct (step a s0) as [s1|] eqn:E; [|done]. intros Hrun Hinv.
    apply (IH s1 Hrun). by apply (indexes_ok_step a s0).
Qed.

(** Looking up a list of ids that all have a record, each under its own
    id, gives one record per id, in order. *)
Lemma omap_lookup_ids (T : gmap string Telemetry) (l : list string) :
  (∀ k, k ∈ l → ∃ r, T !! k = Some r ∧ event_id r = k) →
  event_id <$> omap (λ id, T !! id) l = l.
Proof.
  induction l as [|k l IH]; intros H; [done|].
  destruct (H k) as (r & Hr & Hk); [apply list_elem_of_here|].
  cbn [omap list_omap]. rewrite Hr. cbn [fmap list_fmap]. rewrite Hk.
  f_equal. apply IH. intros k' Hk'. apply H. by apply list_elem_of_further.
Qed.

(** X10: [EVENT_ORDER] holds every stored event id exactly once, however
    often an id is dispatched. *)
Theorem event_order_lists_each_record_once s :
  reachable s →
  NoDup (EVENT_ORDER s)
  ∧ ∀ k, k ∈ EVENT_ORDER s ↔ is_Some (TELEMETRY s !! k).
Proof. intros (H1 & H2 & _)%indexes_ok_reachable. done. Qed.

Lemma dispatched_twice_reachable : reachable dispatched_twice.
Proof.
  exists 0, [Call (SendNotification (named_body "e1") "uuid-1");
             Call (SendNotification (named_body "e1") "uuid-2")].
  vm_compute. reflexivity.
Qed.

Lemma event_order_lists_each_record_once_witness :
  reachable dispatched_twice
  ∧ NoDup (EVENT_ORDER dispatched_twice)
  ∧ ∀ k, k ∈ EVENT_ORDER dispatched_twice
         ↔ is_Some (TELEMETRY dispatched_twice !! k).
Proof.
  split; [exact dispatched_twice_reachable|].
  exact (event_order_lists_each_record_once dispatched_twice
           dispatched_twice_reachable).
Defined.

(** X11: GET /events answers with the records of the 50 ids at the front
    of [EVENT_ORDER], in that order, and its [count] is the number of
    stored events capped at 50. *)
Theorem events_lists_first_fifty s :
  reachable s →
  event_id <$> resp_records (events s) = take 50 (EVENT_ORDER s)
  ∧ resp_count (events s) = Some (Nat.min 50 (size (TELEMETRY s)))
  ∧ length (resp_records (events s)) = Nat.min 50 (size (TELEMETRY s)).
Proof.
  intros Hreach. pose proof (indexes_ok_reachable s Hreach) as (Hnd & Hord & _).
  assert (event_id <$> resp_records (events s) = take 50 (EVENT_ORDER s)) as Hids.
  { unfold events. cbn [resp_records]. apply omap_lookup_ids.
    intros k Hk%subseteq_take. apply Hord in Hk as [r Hr].
    exists r. split; [done|]. by eapply stored_record_key_aux. }
  assert (length (EVENT_ORDER s) = size (TELEMETRY s)) as Hsize.
  { rewrite <- (size_dom (D := gset string)).
    rewrite <- (size_list_to_set (C := gset string)) by done.
    f_equal. apply set_eq. intros k.
    by rewrite elem_of_list_to_set, elem_of_dom, Hord. }
  assert (length (resp_records (events s)) = Nat.min 50 (size (TELEMETRY s)))
    as Hlen.
  { rewrite <- (length_fmap event_id), Hids, length_take. by rewrite Hsize. }
  split; [done|]. split; [|done].
  unfold events in *. cbn [resp_count resp_records] in *. by rewrite Hlen.
Qed.

Lemma events_lists_first_fifty_witness :
  reachable dispatched_twice
  ∧ event_id <$> resp_records (events dispatched_twice) = ["e1"]
  ∧ resp_count (events dispatched_twice) = Some 1%nat.
Proof.
  destruct (events_lists_first_fifty dispatched_twice
              dispatched_twice_reachable) as (H1 & H2 & _).
  split; [exact dispatched_twice_reachable|].
  assert (take 50 (EVENT_ORDER dispatched_twice) = ["e1"]) as E1
    by (vm_compute; reflexivity).
  assert (Nat.min 50 (size (TELEMETRY dispatched_twice)) = 1%nat) as E2
    by (vm_compute; reflexivity).
  rewrite E1 in H1. rewrite E2 in H2. exact (conj H1 H2).
Defined.

(** ** The inbox *)



(** X13: the request just handled is on top of the inbox: after a dispatch
    the first message of the user's inbox is the record of that dispatch,
    and after a login it is the record of that login. *)
Theorem inbox_newest_on_top s :
  (∀ body uuid,
     head (inbox (or_str (body_user_id body) "demo_user")
             (snd (send_notification body uuid s)))
     = Some (dispatched_record body uuid (clock s)
               (route (dispatch_ctx body s))))
  ∧ (∀ uid did uuid,
       head (inbox (to_key uid) (snd (login uid did uuid s)))
       = Some (login_record uid did uuid (clock s) (device_known uid s))).
Proof.
  split.
  - intros body uuid. rewrite send_notification_unfold.
    unfold inbox. store_simpl. rewrite lookup_insert_eq.
    cbn [from_option id]. rewrite omap_app. cbn [omap list_omap].
    rewrite lookup_insert_eq. by rewrite reverse_app.
  - intros uid did uuid. rewrite login_unfold.
    unfold inbox. store_simpl. rewrite lookup_insert_eq.
    cbn [from_option id]. rewrite omap_app. cbn [omap list_omap].
    rewrite lookup_insert_eq. by rewrite reverse_app.
Qed.

(** X14: the inbox goes by event id alone.  If a user's list holds an id
    and that id is dispatched again, by whichever user, the record of the
    new dispatch is what the first user's inbox shows. *)
Theorem inbox_follows_event_id s u l body uuid :
  USER_EVENTS s !! u = Some l → dispatch_id body uuid ∈ l →
  dispatched_record body uuid (clock s) (route (dispatch_ctx body s))
    ∈ inbox u (snd (send_notification body uuid s)).
Proof.
  intros Hl Hin. rewrite send_notification_unfold. unfold inbox. store_simpl.
  rewrite elem_of_reverse, list_elem_of_omap.
  exists (dispatch_id body uuid). split; [|apply lookup_insert_eq].
  destruct (decide (or_str (body_user_id body) "demo_user" = u)) as [->|Hne].
  - rewrite lookup_insert_eq, Hl. cbn [from_option id].
    apply elem_of_app. by left.
  - rewrite lookup_insert_ne by done. by rewrite Hl.
Qed.

Lemma inbox_follows_event_id_witness :
  USER_EVENTS dispatched_twice !! "demo_user" = Some ["e1"; "e1"]
  ∧ dispatch_id foreign_body "uuid-9" ∈ ["e1"; "e1"]
  ∧ user_id (dispatched_record foreign_body "uuid-9" 0 SMS) = Some "mallory"
  ∧ dispatched_record foreign_body "uuid-9" 0 SMS
      ∈ inbox "demo_user"
          (snd (send_notification foreign_body "uuid-9" dispatched_twice)).
Proof.
  assert (USER_EVENTS dispatched_twice !! "demo_user" = Some ["e1"; "e1"])
    as H1 by (vm_compute; reflexivity).
  assert (dispatch_id foreign_body "uuid-9" ∈ ["e1"; "e1"]) as H2
    by apply list_elem_of_here.
  split; [exact H1|]. split; [exact H2|]. split; [reflexivity|].
  pose proof (inbox_follows_event_id dispatched_twice "demo_user" _
                foreign_body "uuid-9" H1 H2) as H.
  assert (route (dispatch_ctx foreign_body dispatched_twice) = SMS) as E1
    by (vm_compute; reflexivity).
  assert (clock dispatched_twice = 0) as E2 by (vm_compute; reflexivity).
  rewrite E1, E2 in H. exact H.
Defined.

(** ** Pending timers *)

Lemma NoDup_fmap_filter {A B} (f : A → B) (P : A → Prop)
    `{!∀ x, Decision (P x)} (l : list A) :
  NoDup (f <$> l) → NoDup (f <$> filter P l).
Proof.
  induction l as [|x l IH]; [done|].
  rewrite fmap_cons, NoDup_cons. intros [Hx Hl].
  rewrite filter_cons. destruct (decide (P x)); [|by apply IH].
  rewrite fmap_cons, NoDup_cons. split; [|by apply IH].
  intros (y & Hy & Hin)%list_elem_of_fmap. apply Hx.
  apply list_elem_of_fmap. exists y. split; [done|].
  by apply list_elem_of_filter in Hin as [_ ?].
Qed.

Lemma step_keeps_present a s s' e :
  step a s = Some s' → is_Some (TELEMETRY s !! e) →
  is_Some (TELEMETRY s' !! e).
Proof.
  intros Hstep [r Hr].
  destruct (step_lookup _ _ _ e Hstep) as [(_ & r1 & -> & _)|[_ Hev]];
    [by eexists|].
  rewrite Hr in Hev. inversion Hev. by eexists.
Qed.

Lemma timers_ok_step a s s' :
  step a s = Some s' → timers_ok s → timers_ok s'.
Proof.
  intros Hstep (Hnd & Hfresh & Hrec).
  pose proof (step_clock _ _ _ Hstep) as Hclk.
  pose proof (timers_fresh_step _ _ _ Hstep Hfresh) as Hfresh'.
  assert (∀ t, t ∈ timers s →
            is_Some (TELEMETRY s' !! tm_event t)
            ∧ tm_due t ≤ clock s' + WHATSAPP_TIMEOUT_MS) as Hold.
  { intros t Ht. destruct (Hrec t Ht) as [? ?]. split; [|lia].
    by apply (step_keeps_present a s). }
  split; [|split; [done|]]; rewrite (step_timers _ _ _ Hstep).
  - destruct a as [[]| |id]; try done.
    + rewrite fmap_app. apply NoDup_app. split; [done|]. split.
      * intros n (t & -> & Ht)%list_elem_of_fmap
                 (t' & Heq & Ht')%list_elem_of_fmap.
        apply armed_event in Ht' as (_ & _ & Hid).
        unfold timers_fresh in Hfresh. rewrite Forall_forall in Hfresh.
        specialize (Hfresh t Ht). lia.
      * unfold armed. destruct (route _); cbn [fmap list_fmap];
          by repeat constructor; try apply not_elem_of_nil.
    + by apply NoDup_fmap_filter.
  - intros t. destruct a as [[]| |id]; auto.
    + intros [Ht|Ht]%elem_of_app; [by auto|].
      pose proof (armed_event _ _ _ _ Ht) as (Hev & Hdue & _).
      rewrite Hev, Hdue. split; [|lia].
      cbn [step handle] in Hstep. injection Hstep as <-.
      rewrite send_notification_lookup. by eexists.
    + unfold remove_timer. intros [_ Ht]%list_elem_of_filter. auto.
Qed.

Lemma timers_ok_reachable s : reachable s → timers_ok s.
Proof.
  intros (t0 & tr & Hrun).
  assert (timers_ok (init_at t0)) as Hinit.
  { split; [constructor|]. split; [constructor|].
    intros t Ht. cbn in Ht. by apply elem_of_nil in Ht. }
  revert Hrun Hinit. generalize (init_at t0). clear t0.
  induction tr as [|a tr IH]; intros s0; cbn [run].
  - by intros [= <-].
  - destruct (step a s0) as [s1|] eqn:E; [|done]. intros Hrun Hinv.
    apply (IH s1 Hrun). by apply (timers_ok_step a s0).
Qed.

(** X15: in every reachable state the pending timers have pairwise
    distinct handles, each addresses an event whose record exists (so the
    callback's "record missing" exit is never taken), and each is due
    within one timeout of the current time. *)
Theorem pending_timers_wellformed s :
  reachable s →
  NoDup (tm_id <$> timers s)
  ∧ ∀ t, t ∈ timers s →
         is_Some (TELEMETRY s !! tm_event t)
         ∧ tm_due t ≤ clock s + WHATSAPP_TIMEOUT_MS.
Proof. intros (H1 & _ & H2)%timers_ok_reachable. done. Qed.

Lemma pending_timers_wellformed_witness :
  reachable dispatched_twice
  ∧ tm_id <$> timers dispatched_twice = [0%nat; 1%nat]
  ∧ NoDup (tm_id <$> timers dispatched_twice)
  ∧ ∀ t, t ∈ timers dispatched_twice →
         is_Some (TELEMETRY dispatched_twice !! tm_event t)
         ∧ tm_due t ≤ clock dispatched_twice + WHATSAPP_TIMEOUT_MS.
Proof.
  split; [exact dispatched_twice_reachable|].
  split; [vm_compute; reflexivity|].
  exact (pending_timers_wellformed dispatched_twice
           dispatched_twice_reachable).
Defined.

(** X16: a timer that fires on an acknowledged event changes nothing: it
    leaves the pending list and every store stays as it was. *)
Theorem fire_on_acknowledged_is_noop s id t r :
  find_timer id (timers s) = Some t → tm_due t ≤ clock s →
  TELEMETRY s !! tm_event t = Some r → is_Some (ack_ts r) →
  step (Fire id) s = Some (set_timers (remove_timer id (timers s)) s).
Proof.
  intros Hfind Hdue Hr Hack. cbn [step]. rewrite Hfind.
  rewrite bool_decide_eq_true_2 by done. f_equal.
  rewrite timer_callback_unfold. apply State_ext; store_simpl; try done.
  apply alter_id. intros x Hx. unfold tm_event in Hr.
  assert (x = r) as -> by congruence.
  unfold fallback_update. by rewrite bool_decide_eq_true_2.
Qed.

Lemma fire_on_acknowledged_is_noop_witness :
  ∃ t r,
    find_timer 0 (timers acked_state) = Some t
    ∧ tm_due t ≤ clock acked_state
    ∧ TELEMETRY acked_state !! tm_event t = Some r
    ∧ is_Some (ack_ts r)
    ∧ step (Fire 0%nat) acked_state
      = Some (set_timers (remove_timer 0 (timers acked_state)) acked_state).
Proof.
  assert (is_Some (find_timer 0 (timers acked_state))) as [t Ht]
    by (vm_compute; eauto).
  assert ((tm_due <$> find_timer 0 (timers acked_state)) = Some 20000
          ∧ (tm_event <$> find_timer 0 (timers acked_state)) = Some "e1"
          ∧ clock acked_state = 20000)
    as (H1 & H2 & H3) by (repeat split; vm_compute; reflexivity).
  rewrite Ht in H1, H2. cbn [fmap option_fmap option_map] in H1, H2.
  injection H1 as H1. injection H2 as H2.
  assert (is_Some (TELEMETRY acked_state !! "e1")) as [r Hr]
    by (vm_compute; eauto).
  assert ((TELEMETRY acked_state !! "e1" ≫= ack_ts) = Some 0) as H4
    by (vm_compute; reflexivity).
  rewrite Hr in H4. cbn [mbind option_bind] in H4.
  assert (tm_due t ≤ clock acked_state) as Hdue by (rewrite H1, H3; lia).
  assert (TELEMETRY acked_state !! tm_event t = Some r) as Hr'
    by (rewrite H2; exact Hr).
  assert (is_Some (ack_ts r)) as Hack by (rewrite H4; eauto).
  exists t, r. split; [exact Ht|]. split; [exact Hdue|].
  split; [exact Hr'|]. split; [exact Hack|].
  exact (fire_on_acknowledged_is_noop acked_state 0 t r Ht Hdue Hr' Hack).
Defined.

(** ** Which handler writes which store *)

Lemma step_registry a s s' :
  step a s = Some s' →
  (binds a = false → USER_DB s' = USER_DB s)
  ∧ (updates_context a = false →
     DEVICE_CONTEXT_STORE s' = DEVICE_CONTEXT_STORE s).
Proof.
  destruct a as [rq|dt|id]; cbn [step].
  - intros [= <-]. destruct rq; cbn [handle snd binds updates_context];
      split; intros ?; try done.
    + by rewrite login_unfold.
    + by rewrite login_unfold.
    + by rewrite complete_binding_unfold.
    + by rewrite send_notification_unfold.
    + by rewrite send_notification_unfold.
    + by rewrite ack_unfold.
    + by rewrite ack_unfold.
  - case_bool_decide; [|done]. by intros [= <-].
  - destruct (find_timer id (timers s)); [|done].
    case_bool_decide; [|done]. intros [= <-].
    by rewrite timer_callback_unfold.
Qed.

(** X17: the device registry is written by /complete-binding only, and the
    simulated contexts by /update-context only: logins, dispatches,
    acknowledgments and timers leave both as they are. *)
Theorem stores_have_one_writer tr s s' :
  run tr s = Some s' →
  (Forall (λ a, binds a = false) tr → USER_DB s' = USER_DB s)
  ∧ (Forall (λ a, updates_context a = false) tr →
     DEVICE_CONTEXT_STORE s' = DEVICE_CONTEXT_STORE s).
Proof.
  revert s. induction tr as [|a tr IH]; intros s; cbn [run].
  - by intros [= <-].
  - destruct (step a s) as [s1|] eqn:E; [|done]. intros Hrun.
    destruct (IH s1 Hrun) as [I1 I2].
    destruct (step_registry _ _ _ E) as [S1 S2].
    split; intros [Ha Htr]%Forall_cons.
    + by rewrite I1, S1.
    + by rewrite I2, S2.
Qed.

Lemma stores_have_one_writer_witness :
  run busy_trace init = Some busy_state
  ∧ Forall (λ a, binds a = false) busy_trace
  ∧ Forall (λ a, updates_context a = false) busy_trace
  ∧ USER_DB busy_state = USER_DB init
  ∧ DEVICE_CONTEXT_STORE busy_state = DEVICE_CONTEXT_STORE init.
Proof.
  assert (run busy_trace init = Some busy_state) as Hrun
    by (vm_compute; reflexivity).
  assert (Forall (λ a, binds a = false) busy_trace) as H1
    by (repeat constructor).
  assert (Forall (λ a, updates_context a = false) busy_trace) as H2
    by (repeat constructor).
  destruct (stores_have_one_writer busy_trace init busy_state Hrun) as [A B].
  split; [exact Hrun|]. split; [exact H1|]. split; [exact H2|].
  exact (conj (A H1) (B H2)).
Defined.

(** ** Edge cases of the handlers *)



(** X19: /complete-binding is last-writer-wins on the registry: after two
    bindings for a user the registry is what the second alone would have
    made it -- the user's entry holds the second device, every other
    user's entry is untouched. *)
Theorem binding_last_writer_wins s uid d1 e1 d2 e2 :
  USER_DB (snd (complete_binding uid d2 e2
                  (snd (complete_binding uid d1 e1 s))))
  = <[to_key uid := {| registered_device_id := d2; is_registered := true |}]>
      (USER_DB s).
Proof.
  rewrite !complete_binding_unfold. store_simpl. apply insert_insert_eq.
Qed.





(** X22: two /update-context requests for one user amount to a single one
    carrying both contexts, the later request winning on shared keys; so
    repeating a request changes nothing. *)
Theorem update_context_composes s uid c1 c2 :
  snd (update_context uid c2 (snd (update_context uid c1 s)))
  = snd (update_context uid (c2 ∪ c1) s)
  ∧ snd (update_context uid c1 (snd (update_context uid c1 s)))
    = snd (update_context uid c1 s).
Proof.
  assert (∀ a b, snd (update_context uid b (snd (update_context uid a s)))
                 = snd (update_context uid (b ∪ a) s)) as H.
  { intros a b. unfold update_context.
    apply State_ext; store_simpl; try done.
    rewrite lookup_insert_eq, insert_insert_eq. cbn [from_option id].
    unfold spread. by rewrite (assoc_L (∪)). }
  split; [apply H|]. rewrite H. by rewrite (idemp (∪) c1).
Qed.

(** ** Routing edge cases *)

Lemma updated_context_lookup s uid c body k :
  or_str (body_user_id body) "demo_user" = or_str uid "demo_user" →
  is_Some (c !! k) →
  dispatch_ctx body (snd (update_context uid c s)) !! k = c !! k.
Proof.
  intros Hu [v Hv]. unfold dispatch_ctx, update_context. store_simpl.
  rewrite Hu, lookup_insert_eq. cbn [from_option id]. unfold spread.
  rewrite Hv. apply lookup_union_Some_l. by apply lookup_union_Some_l.
Qed.

(** X23: once /update-context has set all four routing flags for a user,
    every dispatch for that user is routed by those flags alone, whatever
    context the caller sends along. *)
Theorem updated_context_decides_route s uid c body uuid :
  or_str (body_user_id body) "demo_user" = or_str uid "demo_user" →
  is_Some (c !! "has_app") → is_Some (c !! "is_active") →
  is_Some (c !! "device_online") → is_Some (c !! "whatsapp_opt_in") →
  resp_channel
    (fst (send_notification body uuid (snd (update_context uid c s))))
  = Some (select_spec (snapshot_of c)).
Proof.
  intros Hu H1 H2 H3 H4. rewrite send_notification_fst. cbn [resp_channel].
  rewrite route_select_spec. unfold snapshot_of.
  by rewrite !updated_context_lookup.
Qed.

Lemma updated_context_decides_route_witness :
  or_str (body_user_id absent_body) "demo_user" = or_str None "demo_user"
  ∧ is_Some (present_context !! "has_app")
  ∧ is_Some (present_context !! "is_active")
  ∧ is_Some (present_context !! "device_online")
  ∧ is_Some (present_context !! "whatsapp_opt_in")
  ∧ select_spec (snapshot_of (body_user_context absent_body)) = SMS
  ∧ resp_channel
      (fst (send_notification absent_body "uuid-1"
              (snd (update_context None present_context init))))
    = Some IN_APP.
Proof.
  assert (is_Some (present_context !! "has_app")) as H1
    by (vm_compute; eauto).
  assert (is_Some (present_context !! "is_active")) as H2
    by (vm_compute; eauto).
  assert (is_Some (present_context !! "device_online")) as H3
    by (vm_compute; eauto).
  assert (is_Some (present_context !! "whatsapp_opt_in")) as H4
    by (vm_compute; eauto).
  split; [reflexivity|]. do 4 (split; [assumption|]).
  split; [vm_compute; reflexivity|].
  pose proof (updated_context_decides_route init None present_context
                absent_body "uuid-1" eq_refl H1 H2 H3 H4) as H.
  assert (select_spec (snapshot_of present_context) = IN_APP) as E
    by (vm_compute; reflexivity).
  rewrite E in H. exact H.
Defined.

(** X24: a device that is not online always gets SMS, and no timer: each
    of the three other branches needs [device_online]. *)
Theorem offline_goes_to_sms s body uuid :
  truthy (dispatch_ctx body s !! "device_online") = false →
  resp_channel (fst (send_notification body uuid s)) = Some SMS
  ∧ timers (snd (send_notification body uuid s)) = timers s
  ∧ (TELEMETRY (snd (send_notification body uuid s)) !! dispatch_id body uuid
     ≫= chosen_channel) = Some SMS.
Proof.
  intros Hoff.
  assert (route (dispatch_ctx body s) = SMS) as Hr.
  { unfold route. rewrite Hoff. by rewrite !andb_false_r. }
  rewrite send_notification_fst, send_notification_lookup, Hr.
  split; [done|]. split; [|done].
  rewrite send_notification_unfold. store_simpl.
  unfold armed. rewrite Hr. apply app_nil_r.
Qed.

Lemma offline_goes_to_sms_witness :
  truthy (dispatch_ctx foreign_body init !! "device_online") = false
  ∧ resp_channel (fst (send_notification foreign_body "uuid-1" init))
    = Some SMS
  ∧ timers (snd (send_notification foreign_body "uuid-1" init)) = timers init.
Proof.
  assert (truthy (dispatch_ctx foreign_body init !! "device_online") = false)
    as H by (vm_compute; reflexivity).
  destruct (offline_goes_to_sms init foreign_body "uuid-1" H) as (A & B & _).
  exact (conj H (conj A B)).
Defined.



(** X26: a step touches at most one record: a request or a timer callback
    leaves the records under every other event id exactly as they were. *)
Theorem step_touches_one_record a s s' :
  step a s = Some s' →
  ∃ k, ∀ k', k' ≠ k → TELEMETRY s' !! k' = TELEMETRY s !! k'.
Proof.
  intros Hstep.
  destruct (step_shape _ _ _ Hstep)
    as [(k & _ & r & _ & _ & -> & _)|(_ & _ & _ & k & f & -> & _)];
    exists k; intros k' Hne.
  - by rewrite lookup_insert_ne.
  - by rewrite lookup_alter_ne.
Qed.

Lemma step_touches_one_record_witness :
  ∃ s' k,
    step (Call (Ack (Some "uuid-2") (Some "SMS"))) busy_state = Some s'
    ∧ ∀ k', k' ≠ k → TELEMETRY s' !! k' = TELEMETRY busy_state !! k'.
Proof.
  assert (∃ s', step (Call (Ack (Some "uuid-2") (Some "SMS"))) busy_state
                = Some s') as [s' H] by (eexists; reflexivity).
  destruct (step_touches_one_record _ _ _ H) as [k Hk].
  exists s', k. exact (conj H Hk).
Defined.
